(** * excelToSQL_conv: the spreadsheet-to-SQL converter, both variants

    A shallow embedding of [process_data_to_sql] as written in
    [xls_to_sql.py] (the original variant) and [xls_to_sql_v1.py] (the
    fixed variant), together with the pandas and Python operations the two
    functions call, and the properties of the emitted script.

    Conventions of the embedding.
    - A Python [str] is a [string]; one [ascii] stands for one character.
    - A data frame is column-major, as pandas stores it: an ordered list of
      labelled columns plus the number of rows.  A label is read as the
      first column that bears it; pandas loads frames with distinct labels,
      and the theorems ask that cleaning keeps them distinct.
    - [pd.read_excel] is the environment: the frame it returns is the input
      of the model.
    - A cell is a text, an integer, a float, [np.nan] or [None].  Dates and
      booleans are not modelled.
    - float64 arithmetic is not modelled: how a text is read as a double and
      how a double prints are the three operations of the class [Float64].
    - [print] appends to [stdout]; [f.write] appends one statement to the
      file.  A file that was never opened is [None]. *)

From Stdlib Require Import String Ascii List ZArith Lia Bool Arith.
From Stdlib Require Import DecimalString.
Import ListNotations.
Open Scope list_scope.
Open Scope string_scope.

Set Implicit Arguments.

(** ** Python string operations *)

Module Py.

(** [old in s] for strings. *)
Fixpoint str_in (old s : string) : bool :=
  prefix old s ||
  match s with
  | EmptyString => false
  | String _ s' => str_in old s'
  end.

(** [s.replace(old, new)]: leftmost, non-overlapping occurrences.  [skip]
    counts the characters of a match that are still to be dropped. *)
Fixpoint replace_from (old new : string) (skip : nat) (s : string) : string :=
  match s with
  | EmptyString => EmptyString
  | String c s' =>
      match skip with
      | S k => replace_from old new k s'
      | O =>
          if prefix old s
          then new ++ replace_from old new (String.length old - 1) s'
          else String c (replace_from old new O s')
      end
  end.

(** With an empty [old], Python puts [new] around every character. *)
Fixpoint intersperse (new s : string) : string :=
  match s with
  | EmptyString => new
  | String c s' => new ++ String c (intersperse new s')
  end.

Definition replace (old new s : string) : string :=
  match old with
  | EmptyString => intersperse new s
  | _ => replace_from old new 0 s
  end.

(** [str.isspace] on one character: TAB, LF, VT, FF, CR, FS, GS, RS, US,
    space, NEL and NBSP. *)
Definition isspace (c : ascii) : bool :=
  let n := nat_of_ascii c in
  (((9 <=? n) && (n <=? 13)) || ((28 <=? n) && (n <=? 32))
   || (n =? 133) || (n =? 160))%nat.

Fixpoint lstrip (s : string) : string :=
  match s with
  | EmptyString => EmptyString
  | String c s' => if isspace c then lstrip s' else s
  end.

Fixpoint rstrip (s : string) : string :=
  match s with
  | EmptyString => EmptyString
  | String c s' =>
      match rstrip s' with
      | EmptyString => if isspace c then EmptyString else String c EmptyString
      | r => String c r
      end
  end.

(** [s.strip()] *)
Definition strip (s : string) : string := rstrip (lstrip s).

(** [sep.join(l)] *)
Definition join (sep : string) (l : list string) : string := String.concat sep l.

(** [x in l] for a list of strings and an optional string ([dict.get] may
    give [None], which is in no list of strings). *)
Definition in_list (x : option string) (l : list string) : bool :=
  match x with
  | Some s => existsb (String.eqb s) l
  | None => false
  end.
Arguments in_list : simpl never.

(** [l.index(x)]: the first position, or [ValueError]. *)
Fixpoint index (x : string) (l : list string) : option nat :=
  match l with
  | [] => None
  | y :: l' => if String.eqb y x then Some 0 else option_map S (index x l')
  end.

(** [l[i:j]] for non-negative [i] and [j]. *)
Definition slice (i j : nat) (l : list string) : list string :=
  firstn (j - i) (skipn i l).

(** [str(z)] for an integer. *)
Definition str_int (z : Z) : string := NilZero.string_of_int (Z.to_int z).

(** A [dict] with string keys keeps insertion order: [d[k] = v] overwrites in
    place or appends. *)
Definition dict := list (string * string).

Fixpoint dict_set (d : dict) (k v : string) : dict :=
  match d with
  | [] => [(k, v)]
  | (k', v') :: d' =>
      if String.eqb k' k then (k, v) :: d' else (k', v') :: dict_set d' k v
  end.

Fixpoint dict_get (d : dict) (k : string) : option string :=
  match d with
  | [] => None
  | (k', v') :: d' => if String.eqb k' k then Some v' else dict_get d' k
  end.

End Py.

(** ** Cells and numbers *)

(** The double-precision operations the program relies on. *)
Class Float64 : Type := {
  float : Type;
  (** an integer stored into a float64 column *)
  float_of_int : Z -> float;
  (** pandas reading a text as a double; [None] when the text is no number
      (or spells NaN), which [errors='coerce'] turns into [np.nan] *)
  floatify : string -> option float;
  (** [str(x)] of a float that is not NaN *)
  str_float : float -> string
}.

Section Cells.
Context {F : Float64}.

Inductive cell : Type :=
| Str (s : string)
| Int (z : Z)
| Float (x : float)
| NaN
| PyNone.

(** [str(value)] *)
Definition str (v : cell) : string :=
  match v with
  | Str s => s
  | Int z => Py.str_int z
  | Float x => str_float x
  | NaN => "nan"
  | PyNone => "None"
  end.

(** [pd.notna] on one cell *)
Definition notna (v : cell) : bool :=
  match v with
  | NaN | PyNone => false
  | _ => true
  end.

(** The C [isspace] of pandas' tokenizer. *)
Definition isspace_ascii (c : ascii) : bool :=
  let n := nat_of_ascii c in
  (((9 <=? n) && (n <=? 13)) || (n =? 32))%nat.

Definition is_digit (c : ascii) : bool :=
  let n := nat_of_ascii c in ((48 <=? n) && (n <=? 57))%nat.

Fixpoint digits_value (acc : Z) (s : string) : option Z :=
  match s with
  | EmptyString => Some acc
  | String c s' =>
      if is_digit c
      then digits_value (10 * acc + Z.of_nat (nat_of_ascii c - 48)) s'
      else None
  end.

Definition unsigned_value (s : string) : option Z :=
  match s with
  | EmptyString => None
  | _ => digits_value 0 s
  end.

Fixpoint lskip (s : string) : string :=
  match s with
  | EmptyString => EmptyString
  | String c s' => if isspace_ascii c then lskip s' else s
  end.

Fixpoint rskip (s : string) : string :=
  match s with
  | EmptyString => EmptyString
  | String c s' =>
      match rskip s' with
      | EmptyString => if isspace_ascii c then EmptyString else String c EmptyString
      | r => String c r
      end
  end.

(** A text that pandas reads as an integer: blanks, an optional sign, one or
    more decimal digits, blanks. *)
Definition parse_int (s : string) : option Z :=
  match rskip (lskip s) with
  | String "+" d => unsigned_value d
  | String "-" d => option_map Z.opp (unsigned_value d)
  | t => unsigned_value t
  end.

Definition int64 (z : Z) : bool :=
  ((- 2 ^ 63 <=? z) && (z <? 2 ^ 63))%Z.

(** What one cell contributes to [pd.to_numeric(..., errors='coerce')]: an
    empty text is missing, a text that reads as an integer is that integer
    (one beyond int64 goes the float way), any other text is the double it
    reads as, or missing. *)
Definition numeric_of_cell (v : cell) : cell :=
  match v with
  | Str EmptyString => NaN
  | Str s =>
      match parse_int s with
      | Some z =>
          if int64 z then Int z
          else match floatify s with Some x => Float x | None => NaN end
      | None => match floatify s with Some x => Float x | None => NaN end
      end
  | Int z => if int64 z then Int z else Float (float_of_int z)
  | Float x => Float x
  | NaN => NaN
  | PyNone => NaN
  end.

Definition is_Int (v : cell) : bool :=
  match v with Int _ => true | _ => false end.

Definition as_float (v : cell) : cell :=
  match v with
  | Int z => Float (float_of_int z)
  | _ => v
  end.

(** [pd.to_numeric(column, errors='coerce')]: the column stays an integer
    column when every cell is an integer, and becomes a float column (every
    integer converted) as soon as one cell is missing, fractional or not a
    number. *)
Definition to_numeric (column : list cell) : list cell :=
  let parsed := map numeric_of_cell column in
  if forallb is_Int parsed then parsed else map as_float parsed.

End Cells.

(** ** Data frames *)

Section Frames.
Context {F : Float64}.

Record DataFrame : Type := {
  nrows : nat;
  columns : list (string * list cell)
}.

(** [df.columns.tolist()] *)
Definition labels (df : DataFrame) : list string := map fst (columns df).

(** pandas keeps the labels of a frame it loads distinct; this is the test. *)
Fixpoint nodupb (l : list string) : bool :=
  match l with
  | [] => true
  | x :: l' => negb (existsb (String.eqb x) l') && nodupb l'
  end.

(** The cell in row [i] of column number [j]. *)
Definition cell_at (df : DataFrame) (i j : nat) : option cell :=
  if Nat.ltb i (nrows df) then
    match nth_error (columns df) j with
    | Some (_, data) => nth_error data i
    | None => None
    end
  else None.

(** Applying [f] to every cell of the frame. *)
Definition map_cells (f : cell -> cell) (df : DataFrame) : DataFrame :=
  {| nrows := nrows df;
     columns := map (fun c => (fst c, map f (snd c))) (columns df) |}.

(** [df[col]]: the column, or [KeyError]. *)
Fixpoint lookup (col : string) (cs : list (string * list cell)) : option (list cell) :=
  match cs with
  | [] => None
  | (n, data) :: cs' => if String.eqb n col then Some data else lookup col cs'
  end.

Definition getitem (df : DataFrame) (col : string) : option (list cell) :=
  lookup col (columns df).

(** [df[col] = data] *)
Fixpoint assign (col : string) (data : list cell) (cs : list (string * list cell))
  : list (string * list cell) :=
  match cs with
  | [] => [(col, data)]
  | (n, old) :: cs' =>
      if String.eqb n col then (n, data) :: cs' else (n, old) :: assign col data cs'
  end.

Definition setitem (df : DataFrame) (col : string) (data : list cell) : DataFrame :=
  {| nrows := nrows df; columns := assign col data (columns df) |}.

(** [df.iterrows()]: row [i] as a labelled series. *)
Definition row (df : DataFrame) (i : nat) : list (string * cell) :=
  map (fun c => (fst c, nth i (snd c) NaN)) (columns df).

Definition iterrows (df : DataFrame) : list (list (string * cell)) :=
  map (row df) (seq 0 (nrows df)).

(** [row[col_name]]: the value, or [KeyError]. *)
Fixpoint series_get (r : list (string * cell)) (col : string) : option cell :=
  match r with
  | [] => None
  | (n, v) :: r' => if String.eqb n col then Some v else series_get r' col
  end.

(** ** Loading *)

Inductive exception : Type :=
| FileNotFoundError
| ImportError (msg : string)
| KeyError (key : string).

(** [pd.read_excel(input_file, dtype=...)].  pandas' reader and what it
    depends on (the directory, the installed engines) lie outside the
    repository: a [reader] is what the call gives for a path and for the
    names that [dtype] maps to [str], an exception or the frame. *)
Definition reader := string -> list string -> exception + DataFrame.

(** ** Cleaning *)

(** [df.columns.str.replace(';', '').str.strip()] *)
Definition clean_label (n : string) : string := Py.strip (Py.replace ";" "" n).

Definition rename_columns (df : DataFrame) : DataFrame :=
  {| nrows := nrows df;
     columns := map (fun c => (clean_label (fst c), snd c)) (columns df) |}.

(** [df.replace(';', '', regex=True)]: only texts are searched. *)
Definition remove_semicolons (v : cell) : cell :=
  match v with
  | Str s => Str (Py.replace ";" "" s)
  | _ => v
  end.

(** [df.replace(['NULL', '0', ''], np.nan)]: a cell equal to one of the three
    texts; the number zero is not the text ["0"]. *)
Definition placeholders : list string := ["NULL"; "0"; ""].

Definition null_placeholder (v : cell) : cell :=
  match v with
  | Str s => if existsb (String.eqb s) placeholders then NaN else v
  | _ => v
  end.

Definition clean_cell (v : cell) : cell := null_placeholder (remove_semicolons v).

(** ** Type mapping *)

(** [{col: 'VARCHAR(255)' for col in all_columns}] *)
Definition default_types (all_columns : list string) : Py.dict :=
  fold_left (fun d col => Py.dict_set d col "VARCHAR(255)") all_columns [].

(** [for col in numeric_cols: column_types[col] = 'DOUBLE'] *)
Definition mark_double (column_types : Py.dict) (numeric_cols : list string) : Py.dict :=
  fold_left (fun d col => Py.dict_set d col "DOUBLE") numeric_cols column_types.

(** The three overrides by name. *)
Definition overrides (column_types : Py.dict) : Py.dict :=
  Py.dict_set
    (Py.dict_set
       (Py.dict_set column_types "food_id" "VARCHAR(50) PRIMARY KEY")
       "ndb_no" "INT")
    "last_modified" "DATETIME".

(** The fixed variant looks the nutrient block up by name; [None] is the
    [ValueError] of [list.index]. *)
Definition nutrient_block (all_columns : list string) : option (list string) :=
  match Py.index "energy" all_columns with
  | None => None
  | Some start_index =>
      match Py.index "serv_weight_7" all_columns with
      | None => None
      | Some e => Some (Py.slice start_index (e + 1) all_columns)
      end
  end.

Definition warning_no_block : string :=
  "Warning: Could not find nutrient start/end columns. Defaulting all to VARCHAR.".

(** The types and what the [try] block printed. *)
Definition column_types_v1 (all_columns : list string) : Py.dict * list string :=
  match nutrient_block all_columns with
  | Some numeric_cols =>
      (overrides (mark_double (default_types all_columns) numeric_cols), [])
  | None => (overrides (default_types all_columns), [warning_no_block])
  end.

(** The original variant slices by position; [serving_cols] is computed and
    never used. *)
Definition column_types_orig (all_columns : list string) : Py.dict :=
  let numeric_cols :=
    (Py.slice 11 130 all_columns ++ Py.slice 130 144 all_columns)%list in
  overrides (mark_double (default_types all_columns) numeric_cols).

(** ** Numeric coercion *)

(** [for col, dtype in column_types.items(): if dtype in numeric: df[col] =
    pd.to_numeric(df[col], errors='coerce')] *)
Fixpoint coerce_columns (numeric : list string) (items : Py.dict) (df : DataFrame)
  : exception + DataFrame :=
  match items with
  | [] => inr df
  | (col, dtype) :: rest =>
      if Py.in_list (Some dtype) numeric then
        match getitem df col with
        | None => inl (KeyError col)
        | Some data => coerce_columns numeric rest (setitem df col (to_numeric data))
        end
      else coerce_columns numeric rest df
  end.

End Frames.

(** ** SQL generation *)

Section Emitter.
Context {F : Float64}.

Definition nl : string := String (ascii_of_nat 10) EmptyString.

(** One [f.write].  The write of the insert loop keeps the list it joins, so
    that a literal can be told from the text around it; [render] is the text
    that reaches the file. *)
Inductive statement : Type :=
| Raw (text : string)
| InsertInto (template : string) (values : list string).

Definition render (st : statement) : string :=
  match st with
  | Raw text => text
  | InsertInto template values => template ++ Py.join ", " values ++ ");" ++ nl
  end.


(** One column definition of the CREATE TABLE statement. *)
Definition col_def (column_types : Py.dict) (col_name : string) : string :=
  let sql_type :=
    match Py.dict_get column_types col_name with
    | Some t => t
    | None => "VARCHAR(255)"
    end in
  let null_def := if Py.str_in "PRIMARY KEY" sql_type then "NOT NULL" else "NULL" in
  let type_only := Py.replace " PRIMARY KEY" "" sql_type in
  "  `" ++ col_name ++ "` " ++ type_only ++ " " ++ null_def.

Definition col_defs (column_types : Py.dict) (all_columns : list string) : list string :=
  map (col_def column_types) all_columns.

Definition drop_table_sql (table_name : string) : string :=
  "DROP TABLE IF EXISTS `" ++ table_name ++ "`;" ++ nl ++ nl.

Definition create_table_sql (table_name : string) (column_types : Py.dict)
  (all_columns : list string) : string :=
  "CREATE TABLE `" ++ table_name ++ "` (" ++ nl
  ++ Py.join ("," ++ nl) (col_defs column_types all_columns)
  ++ nl ++ ") ENGINE=InnoDB DEFAULT CHARSET=utf8mb4;" ++ nl ++ nl.

(** [df.astype(object).where(pd.notna(df), None)] *)
Definition none_if_na (v : cell) : cell := if notna v then v else PyNone.

(** [str(value).replace("'", "''").replace("\\", "\\\\")] *)
Definition backslash : string := String (ascii_of_nat 92) EmptyString.

Definition safe_value (v : cell) : string :=
  Py.replace backslash (backslash ++ backslash) (Py.replace "'" "''" (str v)).

(** The literal of one value.  [numeric_text] is [str(value).strip()] in the
    fixed variant and [str(value)] in the original one. *)
Definition sql_literal (numeric_text : cell -> string) (column_types : Py.dict)
  (col_name : string) (value : cell) : string :=
  match value with
  | PyNone => "NULL"
  | _ =>
      if Py.in_list (Py.dict_get column_types col_name) ["INT"; "DOUBLE"]
      then numeric_text value
      else "'" ++ safe_value value ++ "'"
  end.

Definition numeric_text_v1 (value : cell) : string := Py.strip (str value).
Definition numeric_text_orig (value : cell) : string := str value.

(** The inner loop: one literal per column, or the [KeyError] of
    [row[col_name]]. *)
Fixpoint row_values (lit : string -> cell -> string) (r : list (string * cell))
  (all_columns : list string) : exception + list string :=
  match all_columns with
  | [] => inr []
  | col_name :: rest =>
      match series_get r col_name with
      | None => inl (KeyError col_name)
      | Some value =>
          match row_values lit r rest with
          | inl e => inl e
          | inr values => inr (lit col_name value :: values)
          end
      end
  end.

Definition insert_template (table_name : string) (all_columns : list string) : string :=
  "INSERT INTO `" ++ table_name ++ "` (`" ++ Py.join "`, `" all_columns ++ "`) VALUES (".

(** The outer loop: the statements written, and the exception that stopped
    it, if any. *)
Fixpoint insert_rows (template : string) (lit : string -> cell -> string)
  (all_columns : list string) (rows : list (list (string * cell)))
  : list statement * option exception :=
  match rows with
  | [] => ([], None)
  | r :: rest =>
      match row_values lit r all_columns with
      | inl e => ([], Some e)
      | inr values =>
          let (written, e) := insert_rows template lit all_columns rest in
          (InsertInto template values :: written, e)
      end
  end.

(** Section B of the [with] block, from [df_sql] to COMMIT. *)
Definition insert_section (numeric_text : cell -> string) (table_name : string)
  (all_columns : list string) (column_types : Py.dict) (df : DataFrame)
  : list statement * option exception :=
  let df_sql := map_cells none_if_na df in
  let (written, e) :=
    insert_rows (insert_template table_name all_columns)
      (sql_literal numeric_text column_types) all_columns (iterrows df_sql) in
  ((Raw ("START TRANSACTION;" ++ nl) :: written
      ++ match e with None => [Raw ("COMMIT;" ++ nl)] | Some _ => [] end)%list,
   e).

(** ** The two programs *)

(** What a run leaves behind: the lines printed, the statements written to
    the output file, and the exception that ended the run, if any. *)
Record outcome : Type := {
  stdout : list string;
  file : option (list statement);
  raised : option exception
}.

Definition not_found_message (input_file : string) : string :=
  "Error: The file '" ++ input_file
  ++ "' was not found. Please ensure it is in the same directory.".

Definition success_message (output_file : string) (df : DataFrame) : string :=
  "SQL file '" ++ output_file ++ "' generated successfully with "
  ++ Py.str_int (Z.of_nat (nrows df)) ++ " INSERT statements.".

Definition dtype_mapping : list string := ["food_id"; "ndb_no"; "item code"].

(** The cleaned frame of the fixed variant. *)
Definition clean_v1 (df : DataFrame) : DataFrame :=
  map_cells null_placeholder (map_cells remove_semicolons (rename_columns df)).

(** [process_data_to_sql] of xls_to_sql_v1.py *)
Definition process_data_to_sql_v1 (read_excel : reader)
  (input_file output_file table_name : string) : outcome :=
  let out :=
    ["Reading data from: " ++ input_file
     ++ " and forcing string types for key columns..."] in
  match read_excel input_file dtype_mapping with
  | inl FileNotFoundError =>
      {| stdout := (out ++ [not_found_message input_file])%list;
         file := None; raised := None |}
  | inl (ImportError e) =>
      {| stdout := (out ++ [("Error: " ++ e)%string;
           "Please run 'pip install openpyxl' to install the necessary library."])%list;
         file := None; raised := None |}
  | inl e => {| stdout := out; file := None; raised := Some e |}
  | inr df =>
      let df := clean_v1 df in
      let all_columns := labels df in
      let (column_types, warning) := column_types_v1 all_columns in
      let out := (out ++ warning)%list in
      match coerce_columns ["INT"; "DOUBLE"] column_types df with
      | inl e => {| stdout := out; file := None; raised := Some e |}
      | inr df =>
          let out := (out ++ [("Generating SQL file: " ++ output_file ++ "...")%string])%list in
          let (inserts, e) :=
            insert_section numeric_text_v1 table_name all_columns column_types df in
          {| stdout :=
               (out ++ match e with
                       | None => [success_message output_file df]
                       | Some _ => []
                       end)%list;
             file :=
               Some (Raw (drop_table_sql table_name)
                       :: Raw (create_table_sql table_name column_types all_columns)
                       :: inserts);
             raised := e |}
      end
  end.

(** The cleaned frame of the original variant: the labels are left alone. *)
Definition clean_orig (df : DataFrame) : DataFrame :=
  map_cells null_placeholder (map_cells remove_semicolons df).

(** [process_data_to_sql] of xls_to_sql.py *)
Definition process_data_to_sql (read_excel : reader)
  (input_file output_file table_name : string) : outcome :=
  let out := ["Reading data from: " ++ input_file ++ "..."] in
  match read_excel input_file [] with
  | inl FileNotFoundError =>
      {| stdout := (out ++ [not_found_message input_file])%list;
         file := None; raised := None |}
  | inl e => {| stdout := out; file := None; raised := Some e |}
  | inr df =>
      let df := clean_orig df in
      let all_columns := labels df in
      let column_types := column_types_orig all_columns in
      let out := (out ++ [("Generating SQL file: " ++ output_file ++ "...")%string])%list in
      let head :=
        [Raw (drop_table_sql table_name);
         Raw (create_table_sql table_name column_types all_columns)] in
      match coerce_columns ["DOUBLE"] column_types df with
      | inl e => {| stdout := out; file := Some head; raised := Some e |}
      | inr df =>
          let (inserts, e) :=
            insert_section numeric_text_orig table_name all_columns column_types df in
          {| stdout :=
               (out ++ match e with
                       | None => [success_message output_file df]
                       | Some _ => []
                       end)%list;
             file := Some (head ++ inserts)%list;
             raised := e |}
      end
  end.

End Emitter.

(** ** A float model to run the programs on

    Doubles that are short decimals, each carried by the text Python prints
    for it: ["3.5"], ["150.0"], ["-0.25"].  Texts with an exponent, infinities
    and long decimals are outside this model. *)

Module ShortDecimal.

Fixpoint all_digits (s : string) : bool :=
  match s with
  | EmptyString => true
  | String c s' => is_digit c && all_digits s'
  end.

(** The text before the first ['.'] and the text after it. *)
Fixpoint split_point (s : string) : option (string * string) :=
  match s with
  | EmptyString => None
  | String c s' =>
      if Ascii.eqb c "."%char then Some (EmptyString, s')
      else match split_point s' with
           | Some (a, b) => Some (String c a, b)
           | None => None
           end
  end.

Fixpoint drop_leading_zeros (s : string) : string :=
  match s with
  | String c s' => if Ascii.eqb c "0"%char then drop_leading_zeros s' else s
  | EmptyString => EmptyString
  end.

Fixpoint drop_trailing_zeros (s : string) : string :=
  match s with
  | EmptyString => EmptyString
  | String c s' =>
      match drop_trailing_zeros s' with
      | EmptyString => if Ascii.eqb c "0"%char then EmptyString else String c EmptyString
      | r => String c r
      end
  end.

Definition or_zero (s : string) : string :=
  match s with EmptyString => "0" | _ => s end.

Definition unsigned_decimal (s : string) : option string :=
  match split_point s with
  | Some (a, b) =>
      if all_digits a && all_digits b && negb (String.eqb (a ++ b) "")
      then Some (or_zero (drop_leading_zeros a) ++ "." ++ or_zero (drop_trailing_zeros b))
      else None
  | None => None
  end.

Definition read (s : string) : option string :=
  match rskip (lskip s) with
  | String "+" d => unsigned_decimal d
  | String "-" d => option_map (fun t => "-" ++ t) (unsigned_decimal d)
  | t => unsigned_decimal t
  end.

#[export] Instance model : Float64 := {|
  float := string;
  float_of_int z := Py.str_int z ++ ".0";
  floatify := read;
  str_float x := x
|}.

End ShortDecimal.

(** ** What a completed run works with

    The frame the coercion loop leaves when no lookup fails, and the script
    the [with] block writes from it.  The theorems below show that the two
    programs compute exactly these. *)

Section Reference.
Context {F : Float64}.

Definition is_numeric (numeric : list string) (column_types : Py.dict) (col : string)
  : bool :=
  Py.in_list (Py.dict_get column_types col) numeric.

Definition coerced (numeric : list string) (column_types : Py.dict)
  (cs : list (string * list cell)) : list (string * list cell) :=
  map (fun c =>
         if is_numeric numeric column_types (fst c)
         then (fst c, to_numeric (snd c))
         else c)
      cs.

Definition coerced_frame (numeric : list string) (column_types : Py.dict)
  (df : DataFrame) : DataFrame :=
  {| nrows := nrows df; columns := coerced numeric column_types (columns df) |}.

(** The literals of row [i], one per column. *)
Definition literals (numeric_text : cell -> string) (column_types : Py.dict)
  (cs : list (string * list cell)) (i : nat) : list string :=
  map (fun c =>
         sql_literal numeric_text column_types (fst c)
           (nth i (map none_if_na (snd c)) NaN))
      cs.

Definition inserts (numeric_text : cell -> string) (table_name : string)
  (column_types : Py.dict) (df : DataFrame) : list statement :=
  map (fun i =>
         InsertInto (insert_template table_name (labels df))
           (literals numeric_text column_types (columns df) i))
      (seq 0 (nrows df)).

Definition script (numeric_text : cell -> string) (table_name : string)
  (column_types : Py.dict) (df : DataFrame) : list statement :=
  (Raw (drop_table_sql table_name)
   :: Raw (create_table_sql table_name column_types (labels df))
   :: Raw ("START TRANSACTION;" ++ nl)
   :: inserts numeric_text table_name column_types df
   ++ [Raw ("COMMIT;" ++ nl)])%list.

(** The first entry of the type map that the coercion loop cannot find in
    the frame. *)
Definition first_missing (numeric : list string) (all_columns : list string)
  (items : Py.dict) : option (string * string) :=
  find (fun kt =>
          Py.in_list (Some (snd kt)) numeric
          && negb (existsb (String.eqb (fst kt)) all_columns))
       items.

(** The two variants side by side. *)
Inductive variant : Type := Original | Fixed.

Definition run (v : variant) : reader -> string -> string -> string -> outcome :=
  match v with
  | Original => process_data_to_sql
  | Fixed => process_data_to_sql_v1
  end.

(** The names the variant asks the reader to load as text. *)
Definition dtype_of (v : variant) : list string :=
  match v with
  | Original => []
  | Fixed => dtype_mapping
  end.

Definition cleaned (v : variant) (sheet : DataFrame) : DataFrame :=
  match v with
  | Original => clean_orig sheet
  | Fixed => clean_v1 sheet
  end.

(** [all_columns] *)
Definition header (v : variant) (sheet : DataFrame) : list string :=
  labels (cleaned v sheet).

(** [column_types] *)
Definition types_of (v : variant) (sheet : DataFrame) : Py.dict :=
  match v with
  | Original => column_types_orig (header v sheet)
  | Fixed => fst (column_types_v1 (header v sheet))
  end.

(** The types whose columns the variant converts before emission. *)
Definition converted (v : variant) : list string :=
  match v with
  | Original => ["DOUBLE"]
  | Fixed => ["INT"; "DOUBLE"]
  end.

Definition numeric_text_of (v : variant) : cell -> string :=
  match v with
  | Original => numeric_text_orig
  | Fixed => numeric_text_v1
  end.

(** The frame the insert loop reads. *)
Definition final (v : variant) (sheet : DataFrame) : DataFrame :=
  coerced_frame (converted v) (types_of v sheet) (cleaned v sheet).

(** The lists of literals of the INSERT statements of a run, in order. *)
Definition insert_values (o : outcome) : list (list string) :=
  match file o with
  | Some written =>
      flat_map (fun st =>
                  match st with
                  | InsertInto _ values => [values]
                  | Raw _ => []
                  end)
               written
  | None => []
  end.

(** Literal number [j] of INSERT statement number [i]. *)
Definition literal_at (o : outcome) (i j : nat) : option string :=
  match nth_error (insert_values o) i with
  | Some values => nth_error values j
  | None => None
  end.

(** The label a column of the loaded frame has once cleaned. *)
Definition relabel (v : variant) (n : string) : string :=
  match v with
  | Original => n
  | Fixed => clean_label n
  end.

(** Whether the coercion loop finds every column it looks up: always in the
    original variant, and in the fixed one when [ndb_no] is a column. *)
Definition emits (v : variant) (sheet : DataFrame) : Prop :=
  match v with
  | Original => True
  | Fixed => In "ndb_no" (header v sheet)
  end.

(** A text without blank characters, which [strip] leaves alone. *)
Fixpoint no_blank (s : string) : bool :=
  match s with
  | EmptyString => true
  | String c s' => negb (Py.isspace c) && no_blank s'
  end.

(** A text that does not start with a blank, which [lstrip] leaves alone. *)
Definition starts_clean (s : string) : bool :=
  match s with
  | EmptyString => true
  | String c _ => negb (Py.isspace c)
  end.

(** Every [q] of a text replaced by [new]. *)
Fixpoint subst_char (q : ascii) (new s : string) : string :=
  match s with
  | EmptyString => EmptyString
  | String c s' =>
      if Ascii.eqb c q then new ++ subst_char q new s'
      else String c (subst_char q new s')
  end.

(** A text with every single quote doubled and every backslash doubled. *)
Fixpoint escape (s : string) : string :=
  match s with
  | EmptyString => EmptyString
  | String c s' =>
      if Ascii.eqb c "'"%char then String "'" (String "'" (escape s'))
      else if Ascii.eqb c (ascii_of_nat 92)
           then String (ascii_of_nat 92) (String (ascii_of_nat 92) (escape s'))
           else String c (escape s')
  end.

(** Whether the character occurs in the text. *)
Fixpoint has_char (q : ascii) (s : string) : bool :=
  match s with
  | EmptyString => false
  | String c s' => Ascii.eqb c q || has_char q s'
  end.

(** A column definition as the CREATE TABLE statement lists it. *)
Definition column_line (col_name type_only null_def : string) : string :=
  "  `" ++ col_name ++ "` " ++ type_only ++ " " ++ null_def.

(** The lines a run prints. *)
Definition reading_v1 (input_file : string) : string :=
  "Reading data from: " ++ input_file
  ++ " and forcing string types for key columns...".

Definition reading_orig (input_file : string) : string :=
  "Reading data from: " ++ input_file ++ "...".

Definition generating (output_file : string) : string :=
  "Generating SQL file: " ++ output_file ++ "...".

End Reference.

(** ** The configuration of the two scripts, and sample sheets *)

Module Config.

Definition input_excel_file : string := "latest_food_database_sept_25.xlsx".
Definition output_sql_file : string := "food_data_2025_origin.sql".
Definition output_sql_file_v1 : string := "food_data_2025_fixed.sql".
Definition table_name : string := "tb_food_mst_dosm_origin".

End Config.

(** The last line of each file: the function is called once, at import, on
    the constants above. *)
Section Scripts.
Context {F : Float64}.

Definition main_orig (read_excel : reader) : outcome :=
  process_data_to_sql read_excel Config.input_excel_file Config.output_sql_file
    Config.table_name.

Definition main_v1 (read_excel : reader) : outcome :=
  process_data_to_sql_v1 read_excel Config.input_excel_file
    Config.output_sql_file_v1 Config.table_name.

(** The type of a column that no override names: DOUBLE inside the block,
    VARCHAR(255) outside. *)
Definition block_type (inside : bool) : string :=
  if inside then "DOUBLE" else "VARCHAR(255)".

(** The type the three overrides give, if [col] is one of their names. *)
Definition override_type (col : string) : option string :=
  if String.eqb "last_modified" col then Some "DATETIME"
  else if String.eqb "ndb_no" col then Some "INT"
  else if String.eqb "food_id" col then Some "VARCHAR(50) PRIMARY KEY"
  else None.

(** The line a variant prints first, and the warnings of its type
    mapping. *)
Definition opening (v : variant) (input_file : string) : string :=
  match v with
  | Original => reading_orig input_file
  | Fixed => reading_v1 input_file
  end.

Definition warnings (v : variant) (sheet : DataFrame) : list string :=
  match v with
  | Original => []
  | Fixed => snd (column_types_v1 (header v sheet))
  end.

Definition pip_hint : string :=
  "Please run 'pip install openpyxl' to install the necessary library.".

End Scripts.

(** Frames as the reader returns them, small enough to run. *)
Module Examples.

Definition frame := @DataFrame ShortDecimal.model.
Definition text (s : string) : @cell ShortDecimal.model := Str s.

(** A reader that loads the frame from the configured path and finds
    nothing anywhere else. *)
Definition disk (sheet : frame) : @reader ShortDecimal.model :=
  fun path _ =>
    if String.eqb path Config.input_excel_file then inr sheet
    else inl FileNotFoundError.

Definition empty_disk : @reader ShortDecimal.model :=
  fun _ _ => inl FileNotFoundError.

(** The row of the scenario, and nothing else. *)
Definition four_columns : frame :=
  {| nrows := 1;
     columns :=
       [("food_id", [text "09012"]);
        ("energy", [text "150"]);
        ("protein", [text ""]);
        ("last_modified", [text "2024-01-01"])] |}.

(** The same row with a catalogue number, still without the end of the
    nutrient block. *)
Definition no_anchor : frame :=
  {| nrows := 1;
     columns :=
       [("food_id", [text "09012"]);
        ("ndb_no", [text "007"]);
        ("energy", [text "150"]);
        ("protein", [text ""]);
        ("last_modified", [text "2024-01-01"])] |}.

(** The same row in a sheet that has the whole nutrient block. *)
Definition full_header : frame :=
  {| nrows := 1;
     columns :=
       [("food_id", [text "09012"]);
        ("ndb_no", [text "007"]);
        ("energy", [text "150"]);
        ("protein", [text ""]);
        ("serv_weight_7", [text "0;"]);
        ("last_modified", [text "2024-01-01"])] |}.

(** A sheet with neither nutrients nor a catalogue number. *)
Definition plain : frame :=
  {| nrows := 1;
     columns := [("food_id", [text "A1"]); ("name", [text "rice"])] |}.

(** A sheet without a food identifier. *)
Definition no_key : frame :=
  {| nrows := 1;
     columns := [("ndb_no", [text "1001"]); ("name", [text "rice"])] |}.

(** Two rows whose catalogue numbers are not numbers. *)
Definition bad_numbers : frame :=
  {| nrows := 2;
     columns :=
       [("food_id", [text "A;1"; text "A2"]);
        ("ndb_no", [text "abc"; text " 12 "]);
        ("last_modified", [text "2024-01-01"; NaN])] |}.

(** Thirteen columns, to reach the positions the original variant types
    DOUBLE. *)
Definition wide : frame :=
  {| nrows := 1;
     columns :=
       map (fun n => (n, [text "1;5"]))
         ["c0"; "c1"; "c2"; "c3"; "c4"; "c5"; "c6"; "c7"; "c8"; "c9"; "c10";
          "c11"; "c12"] |}.

(** A reader on a machine without the Excel engine. *)
Definition no_openpyxl : @reader ShortDecimal.model :=
  fun _ _ => inl (ImportError "Missing optional dependency 'openpyxl'.").

(** A header that cleaning changes. *)
Definition untidy : frame :=
  {| nrows := 1;
     columns := [(" food;_id ", [text "A1"]); ("ndb_no;", [NaN])] |}.

End Examples.

(** * Properties *)

Section Properties.
Context {F : Float64}.

(** ** Dictionaries *)

Lemma existsb_eqb_In (x : string) (l : list string) :
  existsb (String.eqb x) l = true <-> In x l.
Proof.
  rewrite existsb_exists. split.
  - intros [y [Hy He]]. apply String.eqb_eq in He. now subst.
  - intros H. exists x. split; [assumption | apply String.eqb_refl].
Qed.

Lemma existsb_eqb_false (x : string) (l : list string) :
  existsb (String.eqb x) l = false <-> ~ In x l.
Proof.
  rewrite <- existsb_eqb_In. destruct (existsb _ l); split; intros; congruence.
Qed.

Lemma nodupb_NoDup (l : list string) : nodupb l = true <-> NoDup l.
Proof.
  induction l as [|x l IH]; simpl.
  - split; [constructor | reflexivity].
  - rewrite andb_true_iff, negb_true_iff, existsb_eqb_false, IH.
    split.
    + intros [H1 H2]. now constructor.
    + intros H. inversion H. now split.
Qed.

Lemma dict_get_set (d : Py.dict) (k v k' : string) :
  Py.dict_get (Py.dict_set d k v) k'
  = if String.eqb k k' then Some v else Py.dict_get d k'.
Proof.
  induction d as [|[k0 v0] d IH]; simpl.
  - reflexivity.
  - destruct (String.eqb k0 k) eqn:E0; simpl.
    + apply String.eqb_eq in E0. subst k0.
      destruct (String.eqb k k'); reflexivity.
    + destruct (String.eqb k0 k') eqn:E1.
      * apply String.eqb_eq in E1. subst k0.
        rewrite String.eqb_sym, E0. reflexivity.
      * exact IH.
Qed.

Lemma dict_get_fold_set (v : string) (l : list string) (d : Py.dict) (k : string) :
  Py.dict_get (fold_left (fun d c => Py.dict_set d c v) l d) k
  = if existsb (String.eqb k) l then Some v else Py.dict_get d k.
Proof.
  revert d. induction l as [|c l IH]; intros d; simpl.
  - reflexivity.
  - rewrite IH, dict_get_set, (String.eqb_sym k c).
    destruct (existsb (String.eqb k) l); destruct (String.eqb c k); reflexivity.
Qed.

Lemma keys_set (d : Py.dict) (k v : string) :
  map fst (Py.dict_set d k v)
  = if existsb (String.eqb k) (map fst d) then map fst d else (map fst d ++ [k])%list.
Proof.
  induction d as [|[k0 v0] d IH]; simpl.
  - reflexivity.
  - rewrite (String.eqb_sym k k0).
    destruct (String.eqb k0 k) eqn:E0; simpl.
    + apply String.eqb_eq in E0. now subst.
    + rewrite IH. destruct (existsb (String.eqb k) (map fst d)); reflexivity.
Qed.

Lemma keys_set_NoDup (d : Py.dict) (k v : string) :
  NoDup (map fst d) -> NoDup (map fst (Py.dict_set d k v)).
Proof.
  intros H. rewrite keys_set.
  destruct (existsb (String.eqb k) (map fst d)) eqn:E; [assumption|].
  apply existsb_eqb_false in E.
  apply NoDup_app; [assumption | repeat constructor; intros [] | ].
  intros x Hx [Hk|[]]. now subst.
Qed.

Lemma keys_fold_NoDup (v : string) (l : list string) (d : Py.dict) :
  NoDup (map fst d) -> NoDup (map fst (fold_left (fun d c => Py.dict_set d c v) l d)).
Proof.
  revert d. induction l as [|c l IH]; intros d H; simpl; [assumption|].
  apply IH. now apply keys_set_NoDup.
Qed.

Lemma dict_get_In (d : Py.dict) (k v : string) :
  NoDup (map fst d) -> (In (k, v) d <-> Py.dict_get d k = Some v).
Proof.
  induction d as [|[k0 v0] d IH]; simpl; intros H.
  - split; [intros [] | discriminate].
  - inversion H as [|? ? Hn Hd]; subst.
    destruct (String.eqb k0 k) eqn:E.
    + apply String.eqb_eq in E. subst k0. split.
      * intros [Heq|Hin]; [congruence|].
        exfalso. apply Hn. change k with (fst (k, v)). now apply in_map.
      * intros Heq. left. congruence.
    + apply String.eqb_neq in E. rewrite <- (IH Hd). split.
      * intros [Heq|Hin]; [congruence | assumption].
      * intros Hin. now right.
Qed.

(** ** The type map *)

Lemma dict_get_overrides (d : Py.dict) (k : string) :
  Py.dict_get (overrides d) k
  = if String.eqb "last_modified" k then Some "DATETIME"
    else if String.eqb "ndb_no" k then Some "INT"
    else if String.eqb "food_id" k then Some "VARCHAR(50) PRIMARY KEY"
    else Py.dict_get d k.
Proof.
  unfold overrides. now rewrite !dict_get_set.
Qed.

Lemma dict_get_mark_double (all_columns numeric_cols : list string) (k : string) :
  Py.dict_get (mark_double (default_types all_columns) numeric_cols) k
  = if existsb (String.eqb k) numeric_cols then Some "DOUBLE"
    else if existsb (String.eqb k) all_columns then Some "VARCHAR(255)"
    else None.
Proof.
  unfold mark_double, default_types. now rewrite !dict_get_fold_set.
Qed.

Lemma keys_overrides_NoDup (d : Py.dict) :
  NoDup (map fst d) -> NoDup (map fst (overrides d)).
Proof.
  intros H. unfold overrides. now repeat apply keys_set_NoDup.
Qed.

Lemma keys_mark_double_NoDup (all_columns numeric_cols : list string) :
  NoDup (map fst (mark_double (default_types all_columns) numeric_cols)).
Proof.
  unfold mark_double, default_types.
  repeat apply keys_fold_NoDup. constructor.
Qed.

Lemma keys_v1_NoDup (all_columns : list string) :
  NoDup (map fst (fst (column_types_v1 all_columns))).
Proof.
  unfold column_types_v1.
  destruct (nutrient_block all_columns); simpl; apply keys_overrides_NoDup.
  - apply keys_mark_double_NoDup.
  - apply (keys_mark_double_NoDup all_columns []).
Qed.

Lemma keys_orig_NoDup (all_columns : list string) :
  NoDup (map fst (column_types_orig all_columns)).
Proof.
  unfold column_types_orig. apply keys_overrides_NoDup, keys_mark_double_NoDup.
Qed.

(** The nutrient block is a part of the header. *)
Lemma slice_incl (i j : nat) (l : list string) (x : string) :
  In x (Py.slice i j l) -> In x l.
Proof.
  unfold Py.slice. intros H.
  rewrite <- (firstn_skipn i l). apply in_or_app. right.
  rewrite <- (firstn_skipn (j - i) (skipn i l)). apply in_or_app. now left.
Qed.

Lemma nutrient_block_incl (all_columns block : list string) (x : string) :
  nutrient_block all_columns = Some block -> In x block -> In x all_columns.
Proof.
  unfold nutrient_block.
  destruct (Py.index "energy" all_columns); [|discriminate].
  destruct (Py.index "serv_weight_7" all_columns); [|discriminate].
  intros [= <-]. apply slice_incl.
Qed.

(** Every key of the fixed variant's type map is a column or one of the
    three override names, and only [ndb_no] among the latter is numeric. *)
Lemma types_v1_numeric (all_columns : list string) (k t : string) :
  Py.dict_get (fst (column_types_v1 all_columns)) k = Some t ->
  Py.in_list (Some t) ["INT"; "DOUBLE"] = true ->
  In k all_columns \/ k = "ndb_no".
Proof.
  unfold column_types_v1.
  destruct (nutrient_block all_columns) as [block|] eqn:B; simpl fst;
    rewrite dict_get_overrides;
    (destruct (String.eqb "last_modified" k); [intros [= <-]; discriminate|]);
    (destruct (String.eqb "ndb_no" k) eqn:E;
       [apply String.eqb_eq in E; now right|]);
    (destruct (String.eqb "food_id" k); [intros [= <-]; discriminate|]).
  - rewrite dict_get_mark_double.
    destruct (existsb (String.eqb k) block) eqn:Eb.
    + intros _ _. left. apply existsb_eqb_In in Eb.
      eapply nutrient_block_incl; eassumption.
    + destruct (existsb (String.eqb k) all_columns) eqn:Ea; [|discriminate].
      intros _ _. left. now apply existsb_eqb_In.
  - rewrite (dict_get_mark_double all_columns []). simpl.
    destruct (existsb (String.eqb k) all_columns) eqn:Ea; [|discriminate].
    intros _ _. left. now apply existsb_eqb_In.
Qed.

Lemma types_v1_ndb_no (all_columns : list string) :
  Py.dict_get (fst (column_types_v1 all_columns)) "ndb_no" = Some "INT".
Proof.
  unfold column_types_v1.
  destruct (nutrient_block all_columns); simpl fst;
    now rewrite dict_get_overrides.
Qed.

(** In the original variant every numeric key that the loop converts
    ([DOUBLE]) is a column. *)
Lemma types_orig_double (all_columns : list string) (k : string) :
  Py.dict_get (column_types_orig all_columns) k = Some "DOUBLE" ->
  In k all_columns.
Proof.
  unfold column_types_orig. rewrite dict_get_overrides.
  destruct (String.eqb "last_modified" k); [discriminate|].
  destruct (String.eqb "ndb_no" k); [discriminate|].
  destruct (String.eqb "food_id" k); [discriminate|].
  rewrite dict_get_mark_double.
  destruct (existsb _ (_ ++ _)%list) eqn:Eb.
  - intros _. apply existsb_eqb_In in Eb.
    apply in_app_or in Eb. destruct Eb as [H|H]; eapply slice_incl; eassumption.
  - destruct (existsb (String.eqb k) all_columns) eqn:Ea; [discriminate|discriminate].
Qed.

(** ** The coercion loop *)

Lemma dict_get_notin (d : Py.dict) (k : string) :
  ~ In k (map fst d) -> Py.dict_get d k = None.
Proof.
  induction d as [|[k0 v0] d IH]; simpl; intros H; [reflexivity|].
  destruct (String.eqb k0 k) eqn:E.
  - apply String.eqb_eq in E. exfalso. apply H. now left.
  - apply IH. intros Hin. apply H. now right.
Qed.

Lemma lookup_In (col : string) (cs : list (string * list cell)) :
  existsb (String.eqb col) (map fst cs) = true ->
  exists data, lookup col cs = Some data.
Proof.
  induction cs as [|[n d] cs IH]; simpl; [discriminate|].
  rewrite (String.eqb_sym col n).
  destruct (String.eqb n col); simpl; [intros _; now exists d | exact IH].
Qed.

Lemma lookup_notin (col : string) (cs : list (string * list cell)) :
  existsb (String.eqb col) (map fst cs) = false -> lookup col cs = None.
Proof.
  induction cs as [|[n d] cs IH]; simpl; [reflexivity|].
  rewrite (String.eqb_sym col n).
  destruct (String.eqb n col); simpl; [discriminate | exact IH].
Qed.

Lemma labels_assign (col : string) (data : list cell) (cs : list (string * list cell)) :
  In col (map fst cs) -> map fst (assign col data cs) = map fst cs.
Proof.
  induction cs as [|[n d] cs IH]; simpl; [intros []|].
  destruct (String.eqb n col) eqn:E; simpl; [reflexivity|].
  intros [H|H].
  - apply String.eqb_neq in E. contradiction.
  - now rewrite IH.
Qed.

Lemma is_numeric_cons (numeric : list string) (col dtype : string) (rest : Py.dict)
  (n : string) :
  is_numeric numeric ((col, dtype) :: rest) n
  = if String.eqb col n then Py.in_list (Some dtype) numeric
    else is_numeric numeric rest n.
Proof.
  unfold is_numeric. simpl. now destruct (String.eqb col n).
Qed.

Lemma coerced_notin (numeric : list string) (col dtype : string) (rest : Py.dict)
  (cs : list (string * list cell)) :
  ~ In col (map fst cs) ->
  coerced numeric ((col, dtype) :: rest) cs = coerced numeric rest cs.
Proof.
  intros H. unfold coerced. apply map_ext_in. intros [n d] Hin.
  rewrite is_numeric_cons. cbn [fst snd].
  destruct (String.eqb col n) eqn:E; [|reflexivity].
  apply String.eqb_eq in E. subst n. exfalso. apply H.
  change col with (fst (col, d)). now apply in_map.
Qed.

Lemma coerced_skip (numeric : list string) (col dtype : string) (rest : Py.dict)
  (cs : list (string * list cell)) :
  Py.in_list (Some dtype) numeric = false ->
  ~ In col (map fst rest) ->
  coerced numeric ((col, dtype) :: rest) cs = coerced numeric rest cs.
Proof.
  intros Hn Hk. unfold coerced. apply map_ext. intros [n d].
  rewrite is_numeric_cons. cbn [fst snd].
  destruct (String.eqb col n) eqn:E; [|reflexivity].
  apply String.eqb_eq in E. subst n. rewrite Hn.
  unfold is_numeric. rewrite (dict_get_notin _ _ Hk). reflexivity.
Qed.

Lemma coerced_step (numeric : list string) (col dtype : string) (rest : Py.dict)
  (cs : list (string * list cell)) (data : list cell) :
  NoDup (map fst cs) ->
  ~ In col (map fst rest) ->
  lookup col cs = Some data ->
  Py.in_list (Some dtype) numeric = true ->
  coerced numeric rest (assign col (to_numeric data) cs)
  = coerced numeric ((col, dtype) :: rest) cs.
Proof.
  intros Hnd Hk. induction cs as [|[n d] cs IH]; simpl; [discriminate|].
  inversion Hnd as [|? ? Hn Hnd']; subst.
  destruct (String.eqb n col) eqn:E.
  - apply String.eqb_eq in E. subst n. intros [= <-] Hnum.
    unfold coerced at 1 2. cbn [map fst snd]. fold (coerced numeric rest cs).
    fold (coerced numeric ((col, dtype) :: rest) cs).
    rewrite is_numeric_cons, String.eqb_refl, Hnum.
    unfold is_numeric at 1. rewrite (dict_get_notin _ _ Hk). cbn [Py.in_list].
    f_equal. symmetry. now apply coerced_notin.
  - intros Hl Hnum.
    unfold coerced at 1 2. cbn [map fst snd].
    fold (coerced numeric rest (assign col (to_numeric data) cs)).
    fold (coerced numeric ((col, dtype) :: rest) cs).
    rewrite is_numeric_cons, (String.eqb_sym col n), E.
    f_equal. now apply IH.
Qed.

(** The loop either stops at the first numeric entry that names no column,
    or converts exactly the columns whose type is numeric. *)
Lemma coerce_columns_spec (numeric : list string) (items : Py.dict) :
  NoDup (map fst items) ->
  forall (n : nat) (cs : list (string * list cell)),
    NoDup (map fst cs) ->
    coerce_columns numeric items {| nrows := n; columns := cs |}
    = match first_missing numeric (map fst cs) items with
      | Some kt => inl (KeyError (fst kt))
      | None => inr {| nrows := n; columns := coerced numeric items cs |}
      end.
Proof.
  induction items as [|[col dtype] rest IH]; intros Hk n cs Hcs.
  - simpl. f_equal. f_equal. unfold coerced, is_numeric. simpl.
    symmetry. rewrite <- (map_id cs) at 2. apply map_ext. now intros [].
  - inversion Hk as [|? ? Hcol Hrest]; subst.
    simpl coerce_columns. unfold first_missing. simpl find.
    destruct (Py.in_list (Some dtype) numeric) eqn:Hnum; simpl andb.
    + unfold getitem. simpl columns.
      destruct (existsb (String.eqb col) (map fst cs)) eqn:Hin.
      * destruct (lookup_In _ _ Hin) as [data Hl]. rewrite Hl. simpl negb.
        unfold setitem. simpl.
        assert (Hlab : map fst (assign col (to_numeric data) cs) = map fst cs).
        { apply labels_assign. now apply existsb_eqb_In. }
        rewrite IH; [|assumption|now rewrite Hlab].
        rewrite Hlab. fold (first_missing numeric (map fst cs) rest).
        destruct (first_missing numeric (map fst cs) rest); [reflexivity|].
        f_equal. f_equal. now apply coerced_step with (dtype := dtype).
      * rewrite (lookup_notin _ _ Hin). reflexivity.
    + rewrite IH by assumption.
      fold (first_missing numeric (map fst cs) rest).
      destruct (first_missing numeric (map fst cs) rest); [reflexivity|].
      f_equal. f_equal. symmetry. now apply coerced_skip.
Qed.

(** ** The insert loop *)

Lemma series_get_row (g : string * list cell -> cell) (cs : list (string * list cell))
  (c : string * list cell) :
  NoDup (map fst cs) -> In c cs ->
  series_get (map (fun c => (fst c, g c)) cs) (fst c) = Some (g c).
Proof.
  induction cs as [|[n d] cs IH]; simpl; intros Hnd Hin; [contradiction|].
  inversion Hnd as [|? ? Hn Hnd']; subst.
  destruct Hin as [<-|Hin]; simpl.
  - now rewrite String.eqb_refl.
  - destruct (String.eqb n (fst c)) eqn:E.
    + apply String.eqb_eq in E. subst n. exfalso. apply Hn. now apply in_map.
    + now apply IH.
Qed.

Lemma row_values_incl (lit : string -> cell -> string)
  (g : string * list cell -> cell) (cs l : list (string * list cell)) :
  NoDup (map fst cs) -> incl l cs ->
  row_values lit (map (fun c => (fst c, g c)) cs) (map fst l)
  = inr (map (fun c => lit (fst c) (g c)) l).
Proof.
  intros Hnd. induction l as [|c l IH]; intros Hincl; simpl; [reflexivity|].
  rewrite series_get_row; [|assumption|apply Hincl; now left].
  rewrite IH; [reflexivity|].
  intros x Hx. apply Hincl. now right.
Qed.

Lemma insert_rows_ok (template : string) (lit : string -> cell -> string)
  (df : DataFrame) (rows : list nat) :
  NoDup (labels df) ->
  insert_rows template lit (labels df) (map (row df) rows)
  = (map (fun i =>
            InsertInto template
              (map (fun c => lit (fst c) (nth i (snd c) NaN)) (columns df)))
         rows,
     None).
Proof.
  intros Hnd. induction rows as [|i rows IH]; simpl; [reflexivity|].
  unfold row at 1, labels.
  rewrite (row_values_incl lit (fun c => nth i (snd c) NaN) (l := columns df));
    [|assumption|apply incl_refl].
  fold (labels df). rewrite IH. reflexivity.
Qed.

Lemma insert_section_ok (numeric_text : cell -> string) (table_name : string)
  (column_types : Py.dict) (df : DataFrame) :
  NoDup (labels df) ->
  insert_section numeric_text table_name (labels df) column_types df
  = ((Raw ("START TRANSACTION;" ++ nl)
        :: inserts numeric_text table_name column_types df
        ++ [Raw ("COMMIT;" ++ nl)])%list,
     None).
Proof.
  intros Hnd. unfold insert_section, iterrows.
  assert (Hlab : labels (map_cells none_if_na df) = labels df).
  { unfold labels, map_cells. simpl. rewrite map_map. reflexivity. }
  pose proof (insert_rows_ok (insert_template table_name (labels df))
                (sql_literal numeric_text column_types)
                (map_cells none_if_na df)
                (seq 0 (nrows (map_cells none_if_na df)))) as Hrows.
  rewrite Hlab in Hrows. rewrite (Hrows Hnd).
  unfold inserts, literals, map_cells. simpl columns. simpl nrows.
  f_equal. f_equal. f_equal. apply map_ext. intros i.
  rewrite map_map. reflexivity.
Qed.

Lemma labels_coerced (numeric : list string) (column_types : Py.dict)
  (cs : list (string * list cell)) :
  map fst (coerced numeric column_types cs) = map fst cs.
Proof.
  unfold coerced. rewrite map_map. apply map_ext. intros c.
  now destruct (is_numeric numeric column_types (fst c)).
Qed.

Lemma find_all_false (A : Type) (f : A -> bool) (l : list A) :
  (forall x, In x l -> f x = false) -> find f l = None.
Proof.
  induction l as [|x l IH]; simpl; intros H; [reflexivity|].
  rewrite (H x) by now left. apply IH. intros y Hy. apply H. now right.
Qed.

(** ** The runs *)

(** The fixed variant never misses a column when [ndb_no] is one. *)
Lemma first_missing_v1_present (all_columns : list string) :
  In "ndb_no" all_columns ->
  first_missing ["INT"; "DOUBLE"] all_columns (fst (column_types_v1 all_columns))
  = None.
Proof.
  intros Hndb. apply find_all_false. intros [k t] Hin. simpl.
  destruct (Py.in_list (Some t) ["INT"; "DOUBLE"]) eqn:Hnum; [|reflexivity].
  apply dict_get_In in Hin; [|apply keys_v1_NoDup].
  destruct (types_v1_numeric _ _ Hin Hnum) as [H|H].
  - apply existsb_eqb_In in H. now rewrite H.
  - subst k. apply existsb_eqb_In in Hndb. now rewrite Hndb.
Qed.

(** Without it, [ndb_no] is the entry the loop stops at. *)
Lemma first_missing_v1_absent (all_columns : list string) :
  ~ In "ndb_no" all_columns ->
  exists t,
    first_missing ["INT"; "DOUBLE"] all_columns (fst (column_types_v1 all_columns))
    = Some ("ndb_no", t).
Proof.
  intros Hndb. unfold first_missing.
  destruct (find _ (fst (column_types_v1 all_columns))) as [[k t]|] eqn:Hf.
  - apply find_some in Hf. destruct Hf as [Hin Hp]. simpl in Hp.
    apply andb_true_iff in Hp. destruct Hp as [Hnum Hno].
    apply negb_true_iff, existsb_eqb_false in Hno.
    apply dict_get_In in Hin; [|apply keys_v1_NoDup].
    destruct (types_v1_numeric _ _ Hin Hnum) as [H|H]; [contradiction|].
    subst k. now exists t.
  - exfalso.
    assert (Hin : In ("ndb_no", "INT") (fst (column_types_v1 all_columns))).
    { apply dict_get_In; [apply keys_v1_NoDup | apply types_v1_ndb_no]. }
    apply (find_none _ _ Hf) in Hin. cbv beta in Hin. cbn [fst snd] in Hin.
    apply existsb_eqb_false in Hndb. rewrite Hndb in Hin. discriminate.
Qed.

Lemma first_missing_orig (all_columns : list string) :
  first_missing ["DOUBLE"] all_columns (column_types_orig all_columns) = None.
Proof.
  apply find_all_false. intros [k t] Hin. simpl.
  destruct (Py.in_list (Some t) ["DOUBLE"]) eqn:Hnum; [|reflexivity].
  apply dict_get_In in Hin; [|apply keys_orig_NoDup].
  assert (t = "DOUBLE").
  { unfold Py.in_list in Hnum. simpl in Hnum. rewrite orb_false_r in Hnum.
    now apply String.eqb_eq. }
  subst t. apply types_orig_double, existsb_eqb_In in Hin. now rewrite Hin.
Qed.

(** A run of the fixed variant on a frame with [ndb_no]: it completes and
    writes the script of the coerced frame. *)
Lemma v1_completes (read_excel : reader) (input_file output_file table_name : string)
  (df0 : DataFrame) :
  read_excel input_file dtype_mapping = inr df0 ->
  NoDup (labels (clean_v1 df0)) ->
  In "ndb_no" (labels (clean_v1 df0)) ->
  let df := clean_v1 df0 in
  let types := fst (column_types_v1 (labels df)) in
  process_data_to_sql_v1 read_excel input_file output_file table_name
  = {| stdout :=
         ([reading_v1 input_file] ++ snd (column_types_v1 (labels df))
          ++ [generating output_file; success_message output_file df])%list;
       file :=
         Some (script numeric_text_v1 table_name types
                 (coerced_frame ["INT"; "DOUBLE"] types df));
       raised := None |}.
Proof.
  intros Hread Hnd Hndb. cbv zeta.
  unfold process_data_to_sql_v1. rewrite Hread. cbv zeta.
  pose proof (keys_v1_NoDup (labels (clean_v1 df0))) as Hkeys.
  pose proof (first_missing_v1_present _ Hndb) as Hfm.
  destruct (column_types_v1 (labels (clean_v1 df0))) as [types warning].
  cbn [fst snd] in *.
  destruct (clean_v1 df0) as [n cs]. unfold labels in *. cbn [columns] in *.
  rewrite coerce_columns_spec, Hfm by assumption.
  pose proof (insert_section_ok numeric_text_v1 table_name types
                {| nrows := n; columns := coerced ["INT"; "DOUBLE"] types cs |}) as Hins.
  unfold labels in Hins. cbn [columns] in Hins.
  rewrite labels_coerced in Hins. rewrite (Hins Hnd).
  unfold script, coerced_frame, labels, reading_v1, generating, success_message.
  cbn [columns nrows]. rewrite labels_coerced.
  rewrite <- !app_assoc. reflexivity.
Qed.

(** A run of the fixed variant on a frame without [ndb_no]: [KeyError]
    before the output file is opened. *)
Lemma v1_aborts (read_excel : reader) (input_file output_file table_name : string)
  (df0 : DataFrame) :
  read_excel input_file dtype_mapping = inr df0 ->
  NoDup (labels (clean_v1 df0)) ->
  ~ In "ndb_no" (labels (clean_v1 df0)) ->
  process_data_to_sql_v1 read_excel input_file output_file table_name
  = {| stdout :=
         ([reading_v1 input_file]
          ++ snd (column_types_v1 (labels (clean_v1 df0))))%list;
       file := None;
       raised := Some (KeyError "ndb_no") |}.
Proof.
  intros Hread Hnd Hndb.
  unfold process_data_to_sql_v1. rewrite Hread. cbv zeta.
  pose proof (keys_v1_NoDup (labels (clean_v1 df0))) as Hkeys.
  destruct (first_missing_v1_absent _ Hndb) as [t Hfm].
  destruct (column_types_v1 (labels (clean_v1 df0))) as [types warning].
  cbn [fst snd] in *.
  destruct (clean_v1 df0) as [n cs]. unfold labels in *. cbn [columns] in *.
  rewrite coerce_columns_spec, Hfm by assumption. reflexivity.
Qed.

(** A run of the original variant on any frame it loads: it completes. *)
Lemma orig_completes (read_excel : reader) (input_file output_file table_name : string)
  (df0 : DataFrame) :
  read_excel input_file [] = inr df0 ->
  NoDup (labels df0) ->
  let df := clean_orig df0 in
  let types := column_types_orig (labels df) in
  process_data_to_sql read_excel input_file output_file table_name
  = {| stdout :=
         [reading_orig input_file; generating output_file;
          success_message output_file df];
       file :=
         Some (script numeric_text_orig table_name types
                 (coerced_frame ["DOUBLE"] types df));
       raised := None |}.
Proof.
  intros Hread Hnd. cbv zeta.
  assert (Hlab : labels (clean_orig df0) = labels df0).
  { unfold clean_orig, labels, map_cells. simpl. now rewrite !map_map. }
  rewrite <- Hlab in Hnd.
  unfold process_data_to_sql. rewrite Hread. cbv zeta.
  pose proof (keys_orig_NoDup (labels (clean_orig df0))) as Hkeys.
  pose proof (first_missing_orig (labels (clean_orig df0))) as Hfm.
  set (types := column_types_orig (labels (clean_orig df0))) in *.
  clearbody types.
  destruct (clean_orig df0) as [n cs]. unfold labels in *. cbn [columns] in *.
  rewrite coerce_columns_spec, Hfm by assumption.
  pose proof (insert_section_ok numeric_text_orig table_name types
                {| nrows := n; columns := coerced ["DOUBLE"] types cs |}) as Hins.
  unfold labels in Hins. cbn [columns] in Hins.
  rewrite labels_coerced in Hins. rewrite (Hins Hnd).
  unfold script, coerced_frame, labels, reading_orig, generating, success_message.
  cbn [columns nrows]. rewrite labels_coerced. reflexivity.
Qed.

(** ** Both variants at once *)

Lemma columns_cleaned (v : variant) (sheet : DataFrame) :
  columns (cleaned v sheet)
  = map (fun c => (relabel v (fst c), map clean_cell (snd c)))
        (columns sheet).
Proof.
  unfold cleaned.
  destruct v; unfold clean_orig, clean_v1, rename_columns, map_cells;
    cbn [columns relabel]; rewrite ?map_map; apply map_ext; intros [n d];
    cbn [fst snd]; now rewrite map_map.
Qed.

Lemma header_relabel (v : variant) (sheet : DataFrame) :
  header v sheet = map (relabel v) (labels sheet).
Proof.
  unfold header, labels. rewrite columns_cleaned, map_map. cbn [fst].
  now rewrite map_map.
Qed.

Lemma nrows_final (v : variant) (sheet : DataFrame) :
  nrows (final v sheet) = nrows sheet.
Proof. now destruct v. Qed.

Lemma labels_final (v : variant) (sheet : DataFrame) :
  labels (final v sheet) = header v sheet.
Proof.
  unfold final, coerced_frame, labels, header. cbn [columns].
  apply labels_coerced.
Qed.

Lemma final_column (v : variant) (sheet : DataFrame) (j : nat) (n : string)
  (data : list cell) :
  nth_error (columns sheet) j = Some (n, data) ->
  nth_error (columns (final v sheet)) j
  = Some (relabel v n,
          if is_numeric (converted v) (types_of v sheet) (relabel v n)
          then to_numeric (map clean_cell data)
          else map clean_cell data).
Proof.
  intros H. unfold final, coerced_frame, coerced. cbn [columns].
  rewrite columns_cleaned, map_map, nth_error_map, H. cbn [option_map fst snd].
  now destruct (is_numeric (converted v) (types_of v sheet) (relabel v n)).
Qed.

(** A run that finds its columns writes the script of the final frame. *)
Lemma run_emits (v : variant) (read_excel : reader)
  (input_file output_file table_name : string) (sheet : DataFrame) :
  read_excel input_file (dtype_of v) = inr sheet ->
  NoDup (header v sheet) ->
  emits v sheet ->
  file (run v read_excel input_file output_file table_name)
  = Some (script (numeric_text_of v) table_name (types_of v sheet) (final v sheet))
  /\ raised (run v read_excel input_file output_file table_name) = None.
Proof.
  intros Hfs Hnd Hem. destruct v; cbn [run].
  - rewrite (@orig_completes read_excel input_file output_file table_name sheet).
    + split; reflexivity.
    + exact Hfs.
    + rewrite header_relabel in Hnd. cbn [relabel] in Hnd.
      now rewrite map_id in Hnd.
  - rewrite (@v1_completes read_excel input_file output_file table_name sheet).
    + split; reflexivity.
    + exact Hfs.
    + exact Hnd.
    + exact Hem.
Qed.

(** A run of the fixed variant that does not find [ndb_no] writes nothing. *)
Lemma run_aborts (read_excel : reader) (input_file output_file table_name : string)
  (sheet : DataFrame) :
  read_excel input_file dtype_mapping = inr sheet ->
  NoDup (header Fixed sheet) ->
  ~ In "ndb_no" (header Fixed sheet) ->
  file (run Fixed read_excel input_file output_file table_name) = None
  /\ raised (run Fixed read_excel input_file output_file table_name)
     = Some (KeyError "ndb_no").
Proof.
  intros Hfs Hnd Hno. cbn [run].
  rewrite (@v1_aborts read_excel input_file output_file table_name sheet).
  - split; reflexivity.
  - exact Hfs.
  - exact Hnd.
  - exact Hno.
Qed.

(** A run that wrote a file found its columns. *)
Lemma written_emits (v : variant) (read_excel : reader)
  (input_file output_file table_name : string) (sheet : DataFrame) :
  read_excel input_file (dtype_of v) = inr sheet ->
  NoDup (header v sheet) ->
  file (run v read_excel input_file output_file table_name) <> None ->
  emits v sheet.
Proof.
  intros Hfs Hnd Hfile. destruct v; [exact I|]. cbn [emits].
  destruct (in_dec string_dec "ndb_no" (header Fixed sheet)) as [H|H]; [exact H|].
  exfalso. apply Hfile. now apply run_aborts with (sheet := sheet).
Qed.

(** ** Reading a literal off the script *)

Lemma insert_values_script (o : outcome) (numeric_text : cell -> string)
  (table_name : string) (column_types : Py.dict) (df : DataFrame) :
  file o = Some (script numeric_text table_name column_types df) ->
  insert_values o
  = map (literals numeric_text column_types (columns df)) (seq 0 (nrows df)).
Proof.
  intros Hfile. unfold insert_values. rewrite Hfile. unfold script, inserts.
  cbn [flat_map app]. rewrite flat_map_app. cbn [flat_map]. rewrite app_nil_r.
  induction (seq 0 (nrows df)) as [|i l IH]; cbn [map flat_map app];
    [reflexivity | now rewrite IH].
Qed.

Lemma nth_map_Some (A B : Type) (f : A -> B) (l : list A) (i : nat) (x : A) (d : B) :
  nth_error l i = Some x -> nth i (map f l) d = f x.
Proof.
  intros H. apply nth_error_nth. now rewrite nth_error_map, H.
Qed.

Lemma literal_at_script (o : outcome) (numeric_text : cell -> string)
  (table_name : string) (column_types : Py.dict) (df : DataFrame)
  (i j : nat) (n : string) (data : list cell) :
  file o = Some (script numeric_text table_name column_types df) ->
  i < nrows df ->
  nth_error (columns df) j = Some (n, data) ->
  literal_at o i j
  = Some (sql_literal numeric_text column_types n (nth i (map none_if_na data) NaN)).
Proof.
  intros Hfile Hi Hj. unfold literal_at.
  rewrite (insert_values_script _ Hfile), nth_error_map.
  rewrite (nth_error_nth' _ 0) by now rewrite length_seq.
  rewrite seq_nth by assumption. cbn [option_map plus].
  unfold literals. now rewrite nth_error_map, Hj.
Qed.

Lemma cell_at_Some (df : DataFrame) (i j : nat) (c : cell) :
  cell_at df i j = Some c ->
  i < nrows df
  /\ exists n data, nth_error (columns df) j = Some (n, data)
                   /\ nth_error data i = Some c.
Proof.
  unfold cell_at. destruct (Nat.ltb i (nrows df)) eqn:E; [|discriminate].
  apply Nat.ltb_lt in E.
  destruct (nth_error (columns df) j) as [[n data]|]; [|discriminate].
  intros H. split; [assumption|]. now exists n, data.
Qed.

Lemma to_numeric_nth (data : list cell) (i : nat) (c : cell) :
  nth_error data i = Some c ->
  nth_error (to_numeric data) i
  = Some (if forallb is_Int (map numeric_of_cell data)
          then numeric_of_cell c
          else as_float (numeric_of_cell c)).
Proof.
  intros H. unfold to_numeric.
  destruct (forallb is_Int (map numeric_of_cell data));
    rewrite ?map_map, nth_error_map, H; reflexivity.
Qed.

(** The literal written for a cell of the loaded frame: the cell is cleaned,
    converted when its column's type is one the variant converts, turned to
    [None] when it is missing, and rendered. *)
Lemma literal_of_cell (v : variant) (read_excel : reader)
  (input_file output_file table_name : string) (sheet : DataFrame)
  (i j : nat) (n : string) (data : list cell) (c : cell) :
  read_excel input_file (dtype_of v) = inr sheet ->
  NoDup (header v sheet) ->
  emits v sheet ->
  i < nrows sheet ->
  nth_error (columns sheet) j = Some (n, data) ->
  nth_error data i = Some c ->
  literal_at (run v read_excel input_file output_file table_name) i j
  = Some (sql_literal (numeric_text_of v) (types_of v sheet) (relabel v n)
            (none_if_na
               (if is_numeric (converted v) (types_of v sheet) (relabel v n)
                then if forallb is_Int (map numeric_of_cell (map clean_cell data))
                     then numeric_of_cell (clean_cell c)
                     else as_float (numeric_of_cell (clean_cell c))
                else clean_cell c))).
Proof.
  intros Hfs Hnd Hem Hi Hj Hc.
  destruct (@run_emits v read_excel input_file output_file table_name sheet Hfs Hnd Hem)
    as [Hfile _].
  assert (Hi' : i < nrows (final v sheet)) by now rewrite nrows_final.
  rewrite (@literal_at_script _ _ _ _ _ i j _ _ Hfile Hi'
             (@final_column v sheet j n data Hj)).
  f_equal. f_equal.
  assert (Hclean : nth_error (map clean_cell data) i = Some (clean_cell c))
    by now rewrite nth_error_map, Hc.
  destruct (is_numeric (converted v) (types_of v sheet) (relabel v n)).
  - apply nth_map_Some. now apply to_numeric_nth.
  - now apply nth_map_Some.
Qed.

Lemma clean_placeholder (c : cell) (s : string) :
  remove_semicolons c = Str s -> In s placeholders -> clean_cell c = NaN.
Proof.
  intros Hc Hs. unfold clean_cell. rewrite Hc. cbn [null_placeholder].
  apply existsb_eqb_In in Hs. now rewrite Hs.
Qed.

(** A cell that cleaning turns into the missing-value marker is written as
    NULL, converted or not. *)
Lemma missing_cell_literal (v : variant) (read_excel : reader)
  (input_file output_file table_name : string) (sheet : DataFrame)
  (i j : nat) (n : string) (data : list cell) (c : cell) :
  read_excel input_file (dtype_of v) = inr sheet ->
  NoDup (header v sheet) ->
  emits v sheet ->
  i < nrows sheet ->
  nth_error (columns sheet) j = Some (n, data) ->
  nth_error data i = Some c ->
  clean_cell c = NaN ->
  literal_at (run v read_excel input_file output_file table_name) i j = Some "NULL".
Proof.
  intros Hfs Hnd Hem Hi Hj Hd Hnan.
  rewrite (@literal_of_cell v read_excel input_file output_file table_name sheet
             i j n data c Hfs Hnd Hem Hi Hj Hd), Hnan.
  cbn [numeric_of_cell as_float].
  repeat match goal with |- context [if ?b then _ else _] => destruct b end;
    reflexivity.
Qed.

(** * The claims *)

(** C7.  When the input file does not exist, either variant prints its
    opening line and the not-found message, returns without raising, and
    never opens the output file: nothing is written. *)
Theorem source_not_found (v : variant) (read_excel : reader)
  (input_file output_file table_name : string) :
  read_excel input_file (dtype_of v) = inl FileNotFoundError ->
  run v read_excel input_file output_file table_name
  = {| stdout :=
         [match v with
          | Original => reading_orig input_file
          | Fixed => reading_v1 input_file
          end;
          not_found_message input_file];
       file := None;
       raised := None |}.
Proof.
  intros Hfs.
  destruct v; cbn [run dtype_of] in *;
    unfold process_data_to_sql, process_data_to_sql_v1; rewrite Hfs; reflexivity.
Qed.

(** C10.  In the fixed variant, a header without [ndb_no] is fatal: the
    coercion loop raises [KeyError] on the key the override added, the
    exception is not caught, and the output file is never opened. *)
Theorem missing_ndb_no_is_fatal (read_excel : reader)
  (input_file output_file table_name : string) (sheet : DataFrame) :
  read_excel input_file dtype_mapping = inr sheet ->
  NoDup (header Fixed sheet) ->
  ~ In "ndb_no" (header Fixed sheet) ->
  coerce_columns ["INT"; "DOUBLE"] (types_of Fixed sheet) (cleaned Fixed sheet)
  = inl (KeyError "ndb_no")
  /\ raised (run Fixed read_excel input_file output_file table_name)
     = Some (KeyError "ndb_no")
  /\ file (run Fixed read_excel input_file output_file table_name) = None.
Proof.
  intros Hfs Hnd Hno.
  destruct (@run_aborts read_excel input_file output_file table_name sheet Hfs Hnd Hno)
    as [Hfile Hraised].
  split; [|split; assumption].
  destruct (first_missing_v1_absent _ Hno) as [t Hfm].
  unfold types_of. unfold header in *.
  destruct (cleaned Fixed sheet) as [n cs]. unfold labels in *. cbn [columns] in *.
  rewrite coerce_columns_spec, Hfm; [reflexivity | apply keys_v1_NoDup | assumption].
Qed.

(** C6, as amended.  Whenever the coercion loop finds its columns (always
    in the original variant; in the fixed variant when the header has
    [ndb_no]), the run ends without an exception and writes, for row 0,
    row 1, ... of the frame in turn, one INSERT statement with the literals
    of that row, column by column: the number of INSERT statements equals
    the number of rows loaded, and every INSERT carries one literal per
    column. *)
Theorem insert_count (v : variant) (read_excel : reader)
  (input_file output_file table_name : string) (sheet : DataFrame) :
  read_excel input_file (dtype_of v) = inr sheet ->
  NoDup (header v sheet) ->
  emits v sheet ->
  raised (run v read_excel input_file output_file table_name) = None
  /\ insert_values (run v read_excel input_file output_file table_name)
     = map (literals (numeric_text_of v) (types_of v sheet)
              (columns (final v sheet)))
           (seq 0 (nrows sheet))
  /\ List.length (insert_values (run v read_excel input_file output_file table_name))
     = nrows sheet
  /\ (forall values,
        In values (insert_values (run v read_excel input_file output_file table_name)) ->
        List.length values = List.length (labels sheet)).
Proof.
  intros Hfs Hnd Hem.
  destruct (@run_emits v read_excel input_file output_file table_name sheet Hfs Hnd Hem)
    as [Hfile Hraised].
  rewrite (@insert_values_script _ _ _ _ _ Hfile), nrows_final.
  split; [assumption|split; [reflexivity|split]].
  - now rewrite length_map, length_seq.
  - intros values Hin. apply in_map_iff in Hin. destruct Hin as [i [<- _]].
    unfold literals. rewrite length_map.
    rewrite <- (length_map fst (columns (final v sheet))).
    fold (labels (final v sheet)).
    now rewrite labels_final, header_relabel, length_map.
Qed.

(** C3.  A cell of the loaded frame that, once its semicolons are removed,
    is the text [""], ["NULL"] or ["0"] becomes the missing-value marker,
    and in every run that writes its file the literal at the cell's place
    is the unquoted NULL, whatever the type of its column. *)
Theorem placeholder_is_null (v : variant) (read_excel : reader)
  (input_file output_file table_name : string) (sheet : DataFrame)
  (i j : nat) (c : cell) (s : string) :
  read_excel input_file (dtype_of v) = inr sheet ->
  NoDup (header v sheet) ->
  file (run v read_excel input_file output_file table_name) <> None ->
  cell_at sheet i j = Some c ->
  remove_semicolons c = Str s ->
  In s placeholders ->
  cell_at (cleaned v sheet) i j = Some NaN
  /\ literal_at (run v read_excel input_file output_file table_name) i j = Some "NULL".
Proof.
  intros Hfs Hnd Hfile Hcell Hc Hs.
  pose proof (@written_emits v read_excel input_file output_file table_name sheet
                Hfs Hnd Hfile) as Hem.
  pose proof (@clean_placeholder c s Hc Hs) as Hnan.
  apply cell_at_Some in Hcell. destruct Hcell as [Hi [n [data [Hj Hd]]]].
  split.
  - unfold cell_at.
    assert (Hr : nrows (cleaned v sheet) = nrows sheet) by now destruct v.
    rewrite Hr. apply Nat.ltb_lt in Hi. rewrite Hi.
    rewrite columns_cleaned, nth_error_map, Hj. cbn [option_map snd].
    now rewrite nth_error_map, Hd, <- Hnan.
  - exact (@missing_cell_literal v read_excel input_file output_file table_name sheet
             i j n data c Hfs Hnd Hem Hi Hj Hd Hnan).
Qed.

(** ** Helper facts for the remaining claims *)

Lemma index_None (x : string) (l : list string) :
  ~ In x l -> Py.index x l = None.
Proof.
  induction l as [|y l IH]; simpl; intros H; [reflexivity|].
  destruct (String.eqb y x) eqn:E.
  - apply String.eqb_eq in E. exfalso. apply H. now left.
  - rewrite IH; [reflexivity|]. intros Hin. apply H. now right.
Qed.

Lemma nutrient_block_None (all_columns : list string) :
  ~ In "energy" all_columns \/ ~ In "serv_weight_7" all_columns ->
  nutrient_block all_columns = None.
Proof.
  unfold nutrient_block. intros [H|H].
  - now rewrite (index_None _ _ H).
  - rewrite (index_None _ _ H). now destruct (Py.index "energy" all_columns).
Qed.

Lemma rstrip_no_blank (s : string) : no_blank s = true -> Py.rstrip s = s.
Proof.
  induction s as [|c s IH]; simpl; [reflexivity|].
  intros H. apply andb_true_iff in H. destruct H as [Hc Hs].
  rewrite (IH Hs). apply negb_true_iff in Hc. rewrite Hc.
  now destruct s.
Qed.

Lemma strip_no_blank (s : string) : no_blank s = true -> Py.strip s = s.
Proof.
  intros H. unfold Py.strip.
  assert (Hl : Py.lstrip s = s).
  { destruct s as [|c s]; simpl in *; [reflexivity|].
    apply andb_true_iff in H. destruct H as [Hc _].
    apply negb_true_iff in Hc. now rewrite Hc. }
  rewrite Hl. now apply rstrip_no_blank.
Qed.

Lemma uint_no_blank (d : Decimal.uint) :
  no_blank (NilEmpty.string_of_uint d) = true.
Proof.
  induction d; simpl; try reflexivity; exact IHd.
Qed.

Lemma str_int_no_blank (z : Z) : no_blank (Py.str_int z) = true.
Proof.
  unfold Py.str_int, NilZero.string_of_int, NilZero.string_of_uint.
  destruct (Z.to_int z) as [d|d]; destruct d; try reflexivity;
    apply (uint_no_blank (_ d)) || (simpl; apply uint_no_blank).
Qed.

Lemma strip_str_int (z : Z) : Py.strip (Py.str_int z) = Py.str_int z.
Proof. apply strip_no_blank, str_int_no_blank. Qed.

Lemma header_nth (v : variant) (sheet : DataFrame) (j : nat) (n : string)
  (data : list cell) :
  nth_error (columns sheet) j = Some (n, data) ->
  nth_error (header v sheet) j = Some (relabel v n).
Proof.
  intros H. unfold header, labels.
  now rewrite columns_cleaned, map_map, nth_error_map, H.
Qed.

Lemma types_fixed (sheet : DataFrame) (k : string) :
  Py.dict_get (types_of Fixed sheet) k
  = if String.eqb "last_modified" k then Some "DATETIME"
    else if String.eqb "ndb_no" k then Some "INT"
    else if String.eqb "food_id" k then Some "VARCHAR(50) PRIMARY KEY"
    else match nutrient_block (header Fixed sheet) with
         | Some block =>
             if existsb (String.eqb k) block then Some "DOUBLE"
             else if existsb (String.eqb k) (header Fixed sheet)
                  then Some "VARCHAR(255)" else None
         | None =>
             if existsb (String.eqb k) (header Fixed sheet)
             then Some "VARCHAR(255)" else None
         end.
Proof.
  unfold types_of, column_types_v1.
  destruct (nutrient_block (header Fixed sheet)); cbn [fst];
    rewrite dict_get_overrides.
  - now rewrite dict_get_mark_double.
  - now rewrite (dict_get_mark_double (header Fixed sheet) []).
Qed.

Lemma types_original (sheet : DataFrame) (k : string) :
  Py.dict_get (types_of Original sheet) k
  = if String.eqb "last_modified" k then Some "DATETIME"
    else if String.eqb "ndb_no" k then Some "INT"
    else if String.eqb "food_id" k then Some "VARCHAR(50) PRIMARY KEY"
    else if existsb (String.eqb k)
              (Py.slice 11 130 (header Original sheet)
               ++ Py.slice 130 144 (header Original sheet))%list
         then Some "DOUBLE"
         else if existsb (String.eqb k) (header Original sheet)
              then Some "VARCHAR(255)" else None.
Proof.
  unfold types_of, column_types_orig.
  now rewrite dict_get_overrides, dict_get_mark_double.
Qed.

Ltac pick_type t :=
  right; exists t; split;
  [reflexivity | cbn [In]; repeat first [left; reflexivity | right]].

(** The type a column of either variant gets is one of five. *)
Lemma types_cases (v : variant) (sheet : DataFrame) (k : string) :
  (k = "food_id"
   /\ Py.dict_get (types_of v sheet) k = Some "VARCHAR(50) PRIMARY KEY")
  \/ (k <> "food_id"
      /\ (Py.dict_get (types_of v sheet) k = None
          \/ exists t, Py.dict_get (types_of v sheet) k = Some t
                       /\ In t ["DATETIME"; "INT"; "DOUBLE"; "VARCHAR(255)"])).
Proof.
  assert (Hcases :
    Py.dict_get (types_of v sheet) k
    = (if String.eqb "last_modified" k then Some "DATETIME"
       else if String.eqb "ndb_no" k then Some "INT"
       else if String.eqb "food_id" k then Some "VARCHAR(50) PRIMARY KEY"
       else Py.dict_get (types_of v sheet) k)
    /\ (String.eqb "last_modified" k = false ->
        String.eqb "ndb_no" k = false ->
        String.eqb "food_id" k = false ->
        Py.dict_get (types_of v sheet) k = None
        \/ exists t, Py.dict_get (types_of v sheet) k = Some t
                     /\ In t ["DATETIME"; "INT"; "DOUBLE"; "VARCHAR(255)"])).
  { destruct v; [rewrite types_original | rewrite types_fixed];
      destruct (String.eqb "last_modified" k);
      destruct (String.eqb "ndb_no" k);
      destruct (String.eqb "food_id" k);
      (split; [reflexivity|]); try (intros; discriminate); intros _ _ _.
    - destruct (existsb _ (_ ++ _)%list);
        [pick_type "DOUBLE"|].
      destruct (existsb _ (header Original sheet));
        [pick_type "VARCHAR(255)" | now left].
    - destruct (nutrient_block (header Fixed sheet)) as [block|].
      + destruct (existsb _ block); [pick_type "DOUBLE"|].
        destruct (existsb _ (header Fixed sheet));
          [pick_type "VARCHAR(255)" | now left].
      + destruct (existsb _ (header Fixed sheet));
          [pick_type "VARCHAR(255)" | now left]. }
  destruct Hcases as [Heq Hrest]. rewrite Heq in *. clear Heq.
  destruct (String.eqb "last_modified" k) eqn:E1.
  { apply String.eqb_eq in E1. subst k. right. split; [discriminate|].
    pick_type "DATETIME". }
  destruct (String.eqb "ndb_no" k) eqn:E2.
  { apply String.eqb_eq in E2. subst k. right. split; [discriminate|].
    pick_type "INT". }
  destruct (String.eqb "food_id" k) eqn:E3.
  { apply String.eqb_eq in E3. subst k. now left. }
  right. split.
  - apply String.eqb_neq in E3. congruence.
  - now apply Hrest.
Qed.

Lemma types_fixed_overrides (sheet : DataFrame) :
  Py.dict_get (types_of Fixed sheet) "food_id" = Some "VARCHAR(50) PRIMARY KEY"
  /\ Py.dict_get (types_of Fixed sheet) "ndb_no" = Some "INT"
  /\ Py.dict_get (types_of Fixed sheet) "last_modified" = Some "DATETIME".
Proof. rewrite !types_fixed. repeat split; reflexivity. Qed.

(** C4, as amended.  In the fixed variant, when the header has [ndb_no] but
    lacks [energy] or [serv_weight_7], the run prints the warning, gives
    every column outside the three overrides the type VARCHAR(255), ends
    without an exception and writes the whole script. *)
Theorem missing_anchor_falls_back (read_excel : reader)
  (input_file output_file table_name : string) (sheet : DataFrame) :
  read_excel input_file dtype_mapping = inr sheet ->
  NoDup (header Fixed sheet) ->
  In "ndb_no" (header Fixed sheet) ->
  ~ In "energy" (header Fixed sheet) \/ ~ In "serv_weight_7" (header Fixed sheet) ->
  stdout (run Fixed read_excel input_file output_file table_name)
  = [reading_v1 input_file; warning_no_block; generating output_file;
     success_message output_file (cleaned Fixed sheet)]
  /\ raised (run Fixed read_excel input_file output_file table_name) = None
  /\ file (run Fixed read_excel input_file output_file table_name)
     = Some (script numeric_text_v1 table_name (types_of Fixed sheet)
               (final Fixed sheet))
  /\ (forall col,
        In col (header Fixed sheet) ->
        col <> "food_id" -> col <> "ndb_no" -> col <> "last_modified" ->
        Py.dict_get (types_of Fixed sheet) col = Some "VARCHAR(255)").
Proof.
  intros Hfs Hnd Hndb Hanchor.
  pose proof (nutrient_block_None _ Hanchor) as Hblock.
  cbn [run].
  rewrite (@v1_completes read_excel input_file output_file table_name sheet
             Hfs Hnd Hndb).
  cbn [stdout raised file].
  fold (cleaned Fixed sheet). fold (header Fixed sheet).
  repeat split.
  - unfold column_types_v1. rewrite Hblock. reflexivity.
  - intros col Hin H1 H2 H3. rewrite types_fixed, Hblock.
    apply String.eqb_neq in H1, H2, H3.
    rewrite (String.eqb_sym "last_modified" col), H3.
    rewrite (String.eqb_sym "ndb_no" col), H2.
    rewrite (String.eqb_sym "food_id" col), H1.
    apply existsb_eqb_In in Hin. now rewrite Hin.
Qed.

(** X16.  The column definition either variant writes for a column is the
    quoted name, the type and the nullability, where [food_id] is written
    VARCHAR(50) NOT NULL, without the PRIMARY KEY of its type, and every
    other column is written with its type as mapped and NULL. *)
Theorem column_definition (v : variant) (sheet : DataFrame) (col : string) :
  col_def (types_of v sheet) col
  = column_line col
      (if String.eqb col "food_id" then "VARCHAR(50)"
       else match Py.dict_get (types_of v sheet) col with
            | Some t => t
            | None => "VARCHAR(255)"
            end)
      (if String.eqb col "food_id" then "NOT NULL" else "NULL").
Proof.
  unfold col_def, column_line.
  destruct (types_cases v sheet col) as [[-> ->]|[Hne [->|[t [-> Ht]]]]].
  - reflexivity.
  - apply String.eqb_neq in Hne. now rewrite Hne.
  - apply String.eqb_neq in Hne. rewrite Hne.
    cbn [In] in Ht.
    destruct Ht as [<-|[<-|[<-|[<-|[]]]]]; reflexivity.
Qed.

(** What [to_numeric] leaves in a cell: a number or the missing marker. *)
Lemma numeric_of_cell_shape (c : cell) :
  numeric_of_cell c = NaN
  \/ (exists z, numeric_of_cell c = Int z)
  \/ (exists x, numeric_of_cell c = Float x).
Proof.
  destruct c as [s|z|x| |]; cbn [numeric_of_cell]; eauto.
  - destruct s as [|a s]; [now left|].
    destruct (parse_int (String a s)) as [z|].
    + destruct (int64 z); [eauto|]. destruct (floatify (String a s)); eauto.
    + destruct (floatify (String a s)); eauto.
  - destruct (int64 z); eauto.
Qed.

(** The literal of a cell in a column of the fixed variant whose type is
    INT or DOUBLE: NULL, or the stripped text of a number. *)
Lemma numeric_literal_fixed (read_excel : reader)
  (input_file output_file table_name : string) (sheet : DataFrame)
  (i j : nat) (n : string) (data : list cell) (c : cell) :
  read_excel input_file dtype_mapping = inr sheet ->
  NoDup (header Fixed sheet) ->
  In "ndb_no" (header Fixed sheet) ->
  i < nrows sheet ->
  nth_error (columns sheet) j = Some (n, data) ->
  nth_error data i = Some c ->
  is_numeric ["INT"; "DOUBLE"] (types_of Fixed sheet) (clean_label n) = true ->
  literal_at (run Fixed read_excel input_file output_file table_name) i j
  = Some match numeric_of_cell (clean_cell c) with
         | Int z =>
             if forallb is_Int (map numeric_of_cell (map clean_cell data))
             then Py.str_int z
             else Py.strip (str_float (float_of_int z))
         | Float x => Py.strip (str_float x)
         | _ => "NULL"
         end.
Proof.
  intros Hfs Hnd Hndb Hi Hj Hd Hnum.
  rewrite (@literal_of_cell Fixed read_excel input_file output_file table_name sheet
             i j n data c Hfs Hnd Hndb Hi Hj Hd).
  cbn [relabel converted numeric_text_of]. rewrite Hnum. f_equal.
  unfold sql_literal. unfold is_numeric in Hnum.
  destruct (forallb is_Int (map numeric_of_cell (map clean_cell data)));
    destruct (numeric_of_cell_shape (clean_cell c)) as [->|[[z ->]|[x ->]]];
    cbn [as_float none_if_na notna]; rewrite ?Hnum;
    unfold numeric_text_v1; cbn [str]; rewrite ?strip_str_int; reflexivity.
Qed.

(** C9.  In the fixed variant the column [ndb_no] has type INT and is
    converted although it was loaded as text: every literal of it is NULL
    or the unquoted text of a number, and a text that reads as the integer
    [z] is written as the numeral of [z] (of the float of [z] when the
    column holds anything but integers).  The literal depends on [z] only:
    the leading zeros of the text are gone. *)
Theorem ndb_no_written_as_number (read_excel : reader)
  (input_file output_file table_name : string) (sheet : DataFrame)
  (i j : nat) (n : string) (data : list cell) (c : cell) :
  read_excel input_file dtype_mapping = inr sheet ->
  NoDup (header Fixed sheet) ->
  i < nrows sheet ->
  nth_error (columns sheet) j = Some (n, data) ->
  clean_label n = "ndb_no" ->
  nth_error data i = Some c ->
  Py.dict_get (types_of Fixed sheet) "ndb_no" = Some "INT"
  /\ raised (run Fixed read_excel input_file output_file table_name) = None
  /\ literal_at (run Fixed read_excel input_file output_file table_name) i j
     = Some match numeric_of_cell (clean_cell c) with
            | Int z =>
                if forallb is_Int (map numeric_of_cell (map clean_cell data))
                then Py.str_int z
                else Py.strip (str_float (float_of_int z))
            | Float x => Py.strip (str_float x)
            | _ => "NULL"
            end
  /\ (forall s z,
        clean_cell c = Str s -> parse_int s = Some z -> int64 z = true ->
        literal_at (run Fixed read_excel input_file output_file table_name) i j
        = Some (if forallb is_Int (map numeric_of_cell (map clean_cell data))
                then Py.str_int z
                else Py.strip (str_float (float_of_int z)))).
Proof.
  intros Hfs Hnd Hi Hj Hn Hd.
  destruct (types_fixed_overrides sheet) as [_ [Hint _]].
  assert (Hndb : In "ndb_no" (header Fixed sheet)).
  { apply nth_error_In with (n := j). rewrite <- Hn.
    exact (@header_nth Fixed sheet j n data Hj). }
  assert (Hlit :
    literal_at (run Fixed read_excel input_file output_file table_name) i j
    = Some match numeric_of_cell (clean_cell c) with
           | Int z =>
               if forallb is_Int (map numeric_of_cell (map clean_cell data))
               then Py.str_int z
               else Py.strip (str_float (float_of_int z))
           | Float x => Py.strip (str_float x)
           | _ => "NULL"
           end).
  { apply (@numeric_literal_fixed read_excel input_file output_file table_name sheet
             i j n data c Hfs Hnd Hndb Hi Hj Hd).
    rewrite Hn. unfold is_numeric. now rewrite Hint. }
  split; [assumption|split; [|split; [assumption|]]].
  - exact (proj2 (@run_emits Fixed read_excel input_file output_file table_name sheet
                    Hfs Hnd Hndb)).
  - intros s z Hc Hp Hz. rewrite Hlit, Hc.
    destruct s as [|a s]; [discriminate|].
    cbn [numeric_of_cell]. now rewrite Hp, Hz.
Qed.

(** C1, as amended.  The row of the scenario, in a sheet of the fixed
    variant whose header also has [ndb_no] and in which [energy] is typed
    DOUBLE and holds integers only: the literals at the places of
    [food_id], [energy], [protein] and [last_modified] are '09012', 150,
    NULL and '2024-01-01'. *)
Theorem scenario_row (read_excel : reader)
  (input_file output_file table_name : string) (sheet : DataFrame)
  (i jf je jp jm : nat) (nf ne np nm : string) (df de dp dm : list cell) :
  read_excel input_file dtype_mapping = inr sheet ->
  NoDup (header Fixed sheet) ->
  In "ndb_no" (header Fixed sheet) ->
  Py.dict_get (types_of Fixed sheet) "energy" = Some "DOUBLE" ->
  i < nrows sheet ->
  nth_error (columns sheet) jf = Some (nf, df) ->
  nth_error (columns sheet) je = Some (ne, de) ->
  nth_error (columns sheet) jp = Some (np, dp) ->
  nth_error (columns sheet) jm = Some (nm, dm) ->
  clean_label nf = "food_id" ->
  clean_label ne = "energy" ->
  clean_label nm = "last_modified" ->
  nth_error df i = Some (Str "09012") ->
  nth_error de i = Some (Str "150") ->
  nth_error dp i = Some (Str "") ->
  nth_error dm i = Some (Str "2024-01-01") ->
  forallb is_Int (map numeric_of_cell (map clean_cell de)) = true ->
  literal_at (run Fixed read_excel input_file output_file table_name) i jf = Some "'09012'"
  /\ literal_at (run Fixed read_excel input_file output_file table_name) i je = Some "150"
  /\ literal_at (run Fixed read_excel input_file output_file table_name) i jp = Some "NULL"
  /\ literal_at (run Fixed read_excel input_file output_file table_name) i jm
     = Some "'2024-01-01'".
Proof.
  intros Hfs Hnd Hndb Henergy Hi Hjf Hje Hjp Hjm Hnf Hne Hnm Hf He Hp Hm Hints.
  destruct (types_fixed_overrides sheet) as [Hkey [_ Hdate]].
  repeat split.
  - rewrite (@literal_of_cell Fixed read_excel input_file output_file table_name sheet
               i jf nf df _ Hfs Hnd Hndb Hi Hjf Hf).
    cbn [relabel]. rewrite Hnf. unfold is_numeric, sql_literal.
    rewrite Hkey. reflexivity.
  - rewrite (@numeric_literal_fixed read_excel input_file output_file table_name sheet
               i je ne de _ Hfs Hnd Hndb Hi Hje He).
    + rewrite Hints. reflexivity.
    + rewrite Hne. unfold is_numeric. now rewrite Henergy.
  - exact (@missing_cell_literal Fixed read_excel input_file output_file table_name sheet
             i jp np dp _ Hfs Hnd Hndb Hi Hjp Hp eq_refl).
  - rewrite (@literal_of_cell Fixed read_excel input_file output_file table_name sheet
               i jm nm dm _ Hfs Hnd Hndb Hi Hjm Hm).
    cbn [relabel]. rewrite Hnm. unfold is_numeric, sql_literal.
    rewrite Hdate. reflexivity.
Qed.

(** ** Quoting *)

Lemma replace_single (q : ascii) (new s : string) :
  Py.replace (String q EmptyString) new s = subst_char q new s.
Proof.
  unfold Py.replace. induction s as [|c s IH]; [reflexivity|].
  cbn [Py.replace_from subst_char prefix String.length Nat.sub].
  rewrite (Ascii.eqb_sym c q).
  destruct (ascii_dec q c) as [->|Hne].
  - rewrite Ascii.eqb_refl. destruct s; now rewrite IH.
  - apply Ascii.eqb_neq in Hne. now rewrite Hne, IH.
Qed.

Lemma append_assoc (a b c : string) : (a ++ b) ++ c = a ++ (b ++ c).
Proof.
  induction a as [|x a IH]; simpl; [reflexivity | now rewrite IH].
Qed.

Lemma subst_char_app (q : ascii) (new a b : string) :
  subst_char q new (a ++ b) = subst_char q new a ++ subst_char q new b.
Proof.
  induction a as [|c a IH]; simpl; [reflexivity|].
  destruct (Ascii.eqb c q); simpl; rewrite IH;
    [now rewrite append_assoc | reflexivity].
Qed.

(** The two [replace] calls double every quote and every backslash, and
    change nothing else. *)
Lemma safe_value_escape (v : cell) : safe_value v = escape (str v).
Proof.
  unfold safe_value, backslash.
  change "'" with (String "'"%char EmptyString) at 1.
  rewrite !replace_single.
  induction (str v) as [|c s IH]; [reflexivity|].
  cbn [subst_char escape].
  destruct (Ascii.eqb c "'"%char) eqn:Eq.
  - rewrite subst_char_app, IH. reflexivity.
  - cbn [subst_char]. destruct (Ascii.eqb c (ascii_of_nat 92)); now rewrite IH.
Qed.

(** X1.  In the fixed variant, the literal of any cell of a column typed
    INT or DOUBLE is NULL when conversion leaves no number, and otherwise
    the stripped text of the number, never quoted. *)
Theorem fixed_numeric_literal (read_excel : reader)
  (input_file output_file table_name : string) (sheet : DataFrame)
  (i j : nat) (n : string) (data : list cell) (c : cell) :
  read_excel input_file dtype_mapping = inr sheet ->
  NoDup (header Fixed sheet) ->
  In "ndb_no" (header Fixed sheet) ->
  i < nrows sheet ->
  nth_error (columns sheet) j = Some (n, data) ->
  nth_error data i = Some c ->
  Py.in_list (Py.dict_get (types_of Fixed sheet) (clean_label n)) ["INT"; "DOUBLE"]
  = true ->
  literal_at (run Fixed read_excel input_file output_file table_name) i j
  = Some match numeric_of_cell (clean_cell c) with
         | Int z =>
             if forallb is_Int (map numeric_of_cell (map clean_cell data))
             then Py.str_int z
             else Py.strip (str_float (float_of_int z))
         | Float x => Py.strip (str_float x)
         | _ => "NULL"
         end.
Proof.
  intros Hfs Hnd Hndb Hi Hj Hd Hnum.
  exact (@numeric_literal_fixed read_excel input_file output_file table_name sheet
           i j n data c Hfs Hnd Hndb Hi Hj Hd Hnum).
Qed.

(** X2.  In either variant, the literal of a cell that is not missing, in
    a column whose type is neither INT nor DOUBLE, is the text of the
    cleaned cell between single quotes, with every single quote and every
    backslash of it doubled. *)
Theorem quoted_literal (v : variant) (read_excel : reader)
  (input_file output_file table_name : string) (sheet : DataFrame)
  (i j : nat) (n : string) (data : list cell) (c : cell) :
  read_excel input_file (dtype_of v) = inr sheet ->
  NoDup (header v sheet) ->
  emits v sheet ->
  i < nrows sheet ->
  nth_error (columns sheet) j = Some (n, data) ->
  nth_error data i = Some c ->
  Py.in_list (Py.dict_get (types_of v sheet) (relabel v n)) ["INT"; "DOUBLE"]
  = false ->
  notna (clean_cell c) = true ->
  literal_at (run v read_excel input_file output_file table_name) i j
  = Some ("'" ++ escape (str (clean_cell c)) ++ "'").
Proof.
  intros Hfs Hnd Hem Hi Hj Hd Htype Hna.
  rewrite (@literal_of_cell v read_excel input_file output_file table_name sheet
             i j n data c Hfs Hnd Hem Hi Hj Hd).
  assert (Hconv : is_numeric (converted v) (types_of v sheet) (relabel v n) = false).
  { unfold is_numeric. destruct v; cbn [converted]; [|exact Htype].
    destruct (Py.dict_get (types_of Original sheet) (relabel Original n)) as [t|];
      [|reflexivity].
    unfold Py.in_list in *. cbn [existsb] in *.
    apply orb_false_iff in Htype. destruct Htype as [_ Htype].
    exact Htype. }
  rewrite Hconv. unfold none_if_na. rewrite Hna.
  unfold sql_literal. rewrite Htype, safe_value_escape.
  destruct (clean_cell c); try reflexivity; discriminate.
Qed.

Lemma has_char_removed (q : ascii) (s : string) :
  has_char q (subst_char q "" s) = false.
Proof.
  induction s as [|c s IH]; [reflexivity|]. cbn [subst_char].
  destruct (Ascii.eqb c q) eqn:E; cbn [append has_char]; [exact IH|].
  now rewrite E, IH.
Qed.

Lemma has_semicolon_escape (s : string) :
  has_char ";"%char (escape s) = has_char ";"%char s.
Proof.
  induction s as [|c s IH]; [reflexivity|]. cbn [escape].
  destruct (Ascii.eqb c "'"%char) eqn:E1.
  - apply Ascii.eqb_eq in E1. subst c. cbn [has_char]. rewrite IH. reflexivity.
  - destruct (Ascii.eqb c (ascii_of_nat 92)) eqn:E2.
    + apply Ascii.eqb_eq in E2. subst c. cbn [has_char]. rewrite IH. reflexivity.
    + cbn [has_char]. now rewrite IH.
Qed.

Lemma has_char_app (q : ascii) (a b : string) :
  has_char q (a ++ b) = has_char q a || has_char q b.
Proof.
  induction a as [|c a IH]; [reflexivity|]. cbn [append has_char].
  now rewrite IH, orb_assoc.
Qed.

(** X3.  In either variant, the literal of a text cell that is not missing,
    in a column whose type is neither INT nor DOUBLE, holds no semicolon:
    the semicolons of the cell do not reach the script. *)
Theorem no_semicolon_in_text_literal (v : variant) (read_excel : reader)
  (input_file output_file table_name : string) (sheet : DataFrame)
  (i j : nat) (n : string) (data : list cell) (s : string) :
  read_excel input_file (dtype_of v) = inr sheet ->
  NoDup (header v sheet) ->
  emits v sheet ->
  i < nrows sheet ->
  nth_error (columns sheet) j = Some (n, data) ->
  nth_error data i = Some (Str s) ->
  Py.in_list (Py.dict_get (types_of v sheet) (relabel v n)) ["INT"; "DOUBLE"]
  = false ->
  notna (clean_cell (Str s)) = true ->
  exists literal,
    literal_at (run v read_excel input_file output_file table_name) i j
    = Some literal
    /\ has_char ";"%char literal = false.
Proof.
  intros Hfs Hnd Hem Hi Hj Hd Htype Hna.
  rewrite (@literal_of_cell v read_excel input_file output_file table_name sheet
             i j n data (Str s) Hfs Hnd Hem Hi Hj Hd).
  eexists. split; [reflexivity|].
  assert (Hconv : is_numeric (converted v) (types_of v sheet) (relabel v n) = false).
  { unfold is_numeric. destruct v; cbn [converted]; [|exact Htype].
    destruct (Py.dict_get (types_of Original sheet) (relabel Original n)) as [t|];
      [|reflexivity].
    unfold Py.in_list in *. cbn [existsb] in *.
    apply orb_false_iff in Htype. destruct Htype as [_ Htype].
    exact Htype. }
  rewrite Hconv. unfold none_if_na. rewrite Hna.
  unfold clean_cell in *. cbn [remove_semicolons null_placeholder] in *.
  change ";" with (String ";"%char EmptyString). rewrite replace_single in *.
  destruct (existsb (String.eqb (subst_char ";" "" s)) placeholders);
    [discriminate|].
  unfold sql_literal. rewrite Htype, safe_value_escape. cbn [str].
  rewrite !has_char_app, has_semicolon_escape, has_char_removed. reflexivity.
Qed.

(** * Further properties of the two programs *)

(** ** Types by position *)

Lemma index_nth (l : list string) (i : nat) (x : string) :
  NoDup l -> nth_error l i = Some x -> Py.index x l = Some i.
Proof.
  intros Hnd. revert i. induction l as [|y l IH]; intros i Hi.
  - destruct i; discriminate.
  - inversion Hnd as [|? ? Hy Hnd']; subst. destruct i as [|i]; simpl in *.
    + injection Hi as ->. now rewrite String.eqb_refl.
    + destruct (String.eqb y x) eqn:E.
      * apply String.eqb_eq in E. subst y. exfalso. apply Hy.
        eapply nth_error_In; eassumption.
      * now rewrite (IH Hnd' i Hi).
Qed.

Lemma slice_In_iff (l : list string) (i j p : nat) (x : string) :
  NoDup l -> nth_error l p = Some x ->
  In x (Py.slice i j l) <-> i <= p < j.
Proof.
  intros Hnd Hp. unfold Py.slice. split.
  - intros Hin. apply In_nth_error in Hin. destruct Hin as [k Hk].
    rewrite nth_error_firstn in Hk.
    destruct (Nat.ltb k (j - i)) eqn:E; [|discriminate].
    apply Nat.ltb_lt in E. rewrite nth_error_skipn in Hk.
    assert (p = i + k).
    { apply (proj1 (NoDup_nth_error l) Hnd).
      - apply nth_error_Some. now rewrite Hp.
      - now rewrite Hp, Hk. }
    lia.
  - intros [Hlo Hhi]. apply nth_error_In with (n := p - i).
    rewrite nth_error_firstn.
    assert (E : Nat.ltb (p - i) (j - i) = true) by (apply Nat.ltb_lt; lia).
    rewrite E, nth_error_skipn. now replace (i + (p - i)) with p by lia.
Qed.

Lemma existsb_In_bool (x : string) (l : list string) (b : bool) :
  (In x l <-> b = true) -> existsb (String.eqb x) l = b.
Proof.
  intros H. destruct b.
  - apply existsb_eqb_In. now apply H.
  - apply existsb_eqb_false. intros Hin. apply H in Hin. discriminate.
Qed.

(** X4.  In the fixed variant, when the cleaned header has both anchors,
    [energy] at position [a] and [serv_weight_7] at position [b], no
    warning is printed, and a column at position [p] gets the type of its
    override if it bears one of the three override names, DOUBLE if it
    bears none and [a <= p <= b], and VARCHAR(255) otherwise.  In
    particular no column is DOUBLE when [serv_weight_7] comes before
    [energy], and that goes unreported. *)
Theorem fixed_type_by_position (sheet : DataFrame) (a b p : nat) (col : string) :
  NoDup (header Fixed sheet) ->
  nth_error (header Fixed sheet) a = Some "energy" ->
  nth_error (header Fixed sheet) b = Some "serv_weight_7" ->
  nth_error (header Fixed sheet) p = Some col ->
  snd (column_types_v1 (header Fixed sheet)) = []
  /\ Py.dict_get (types_of Fixed sheet) col
     = Some match override_type col with
            | Some t => t
            | None => block_type (Nat.leb a p && Nat.leb p b)
            end.
Proof.
  intros Hnd Ha Hb Hp.
  assert (Hblock : nutrient_block (header Fixed sheet)
                   = Some (Py.slice a (b + 1) (header Fixed sheet))).
  { unfold nutrient_block.
    now rewrite (@index_nth (header Fixed sheet) a "energy" Hnd Ha),
      (@index_nth (header Fixed sheet) b "serv_weight_7" Hnd Hb). }
  split.
  - unfold column_types_v1. now rewrite Hblock.
  - rewrite types_fixed, Hblock. unfold override_type.
    destruct (String.eqb "last_modified" col); [reflexivity|].
    destruct (String.eqb "ndb_no" col); [reflexivity|].
    destruct (String.eqb "food_id" col); [reflexivity|].
    rewrite (@existsb_In_bool col (Py.slice a (b + 1) (header Fixed sheet))
               (Nat.leb a p && Nat.leb p b)).
    + unfold block_type. destruct (Nat.leb a p && Nat.leb p b); [reflexivity|].
      assert (Hin : existsb (String.eqb col) (header Fixed sheet) = true).
      { apply existsb_eqb_In. eapply nth_error_In; eassumption. }
      now rewrite Hin.
    + rewrite (@slice_In_iff (header Fixed sheet) a (b + 1) p col Hnd Hp),
        andb_true_iff, !Nat.leb_le.
      lia.
Qed.

(** X5.  In the original variant the block is fixed by position: a column
    at position [p] of the header gets the type of its override if it bears
    one of the three override names, DOUBLE if it bears none and
    [11 <= p < 144], and VARCHAR(255) otherwise; a header of eleven columns
    or fewer has no DOUBLE column. *)
Theorem original_type_by_position (sheet : DataFrame) (p : nat) (col : string) :
  NoDup (header Original sheet) ->
  nth_error (header Original sheet) p = Some col ->
  Py.dict_get (types_of Original sheet) col
  = Some match override_type col with
         | Some t => t
         | None => block_type (Nat.leb 11 p && Nat.ltb p 144)
         end.
Proof.
  intros Hnd Hp. rewrite types_original. unfold override_type.
  destruct (String.eqb "last_modified" col); [reflexivity|].
  destruct (String.eqb "ndb_no" col); [reflexivity|].
  destruct (String.eqb "food_id" col); [reflexivity|].
  rewrite (@existsb_In_bool col
             (Py.slice 11 130 (header Original sheet)
              ++ Py.slice 130 144 (header Original sheet))%list
             (Nat.leb 11 p && Nat.ltb p 144)).
  - unfold block_type. destruct (Nat.leb 11 p && Nat.ltb p 144); [reflexivity|].
    assert (Hin : existsb (String.eqb col) (header Original sheet) = true).
    { apply existsb_eqb_In. eapply nth_error_In; eassumption. }
    now rewrite Hin.
  - rewrite in_app_iff,
      (@slice_In_iff (header Original sheet) 11 130 p col Hnd Hp),
      (@slice_In_iff (header Original sheet) 130 144 p col Hnd Hp),
      andb_true_iff, Nat.leb_le, Nat.ltb_lt.
    lia.
Qed.

(** ** Whole runs *)

(** Everything a run that finds its columns leaves behind. *)
Lemma run_outcome (v : variant) (read_excel : reader)
  (input_file output_file table_name : string) (sheet : DataFrame) :
  read_excel input_file (dtype_of v) = inr sheet ->
  NoDup (header v sheet) ->
  emits v sheet ->
  run v read_excel input_file output_file table_name
  = {| stdout :=
         (opening v input_file :: warnings v sheet
          ++ [generating output_file;
              success_message output_file (cleaned v sheet)])%list;
       file :=
         Some (script (numeric_text_of v) table_name (types_of v sheet)
                 (final v sheet));
       raised := None |}.
Proof.
  intros Hfs Hnd Hem. destruct v; cbn [run opening warnings].
  - rewrite (@orig_completes read_excel input_file output_file table_name sheet
               Hfs).
    + reflexivity.
    + rewrite header_relabel in Hnd. cbn [relabel] in Hnd.
      now rewrite map_id in Hnd.
  - now rewrite (@v1_completes read_excel input_file output_file table_name sheet
                   Hfs Hnd Hem).
Qed.

(** X6.  When the reader raises [ImportError], the fixed variant catches
    it: it prints the error and the hint to install openpyxl, returns, and
    writes nothing.  The original variant has no handler for it: the
    exception leaves the function, again before the output file is
    opened. *)
Theorem import_error_handling (v : variant) (read_excel : reader)
  (input_file output_file table_name msg : string) :
  read_excel input_file (dtype_of v) = inl (ImportError msg) ->
  run v read_excel input_file output_file table_name
  = match v with
    | Fixed =>
        {| stdout := [reading_v1 input_file; "Error: " ++ msg; pip_hint];
           file := None;
           raised := None |}
    | Original =>
        {| stdout := [reading_orig input_file];
           file := None;
           raised := Some (ImportError msg) |}
    end.
Proof.
  intros Hfs.
  destruct v; cbn [run dtype_of] in *;
    unfold process_data_to_sql, process_data_to_sql_v1; rewrite Hfs; reflexivity.
Qed.

(** X7.  No partial output: whatever the reader gives, a run of either
    variant on a frame with distinct labels either never opens the output
    file, or ends without an exception having written a file that starts
    with DROP TABLE and ends with COMMIT. *)
Theorem all_or_nothing (v : variant) (read_excel : reader)
  (input_file output_file table_name : string) :
  (forall sheet,
     read_excel input_file (dtype_of v) = inr sheet -> NoDup (header v sheet)) ->
  file (run v read_excel input_file output_file table_name) = None
  \/ (raised (run v read_excel input_file output_file table_name) = None
      /\ exists body,
           file (run v read_excel input_file output_file table_name)
           = Some (Raw (drop_table_sql table_name) :: body
                   ++ [Raw ("COMMIT;" ++ nl)])%list).
Proof.
  intros Hlabels.
  destruct (read_excel input_file (dtype_of v)) as [e|sheet] eqn:Hfs.
  - left. destruct v; cbn [run dtype_of] in *;
      unfold process_data_to_sql, process_data_to_sql_v1; rewrite Hfs;
      destruct e; reflexivity.
  - pose proof (Hlabels sheet eq_refl) as Hnd.
    assert (Hdone : emits v sheet ->
              raised (run v read_excel input_file output_file table_name) = None
              /\ exists body,
                   file (run v read_excel input_file output_file table_name)
                   = Some (Raw (drop_table_sql table_name) :: body
                           ++ [Raw ("COMMIT;" ++ nl)])%list).
    { intros Hem.
      rewrite (@run_outcome v read_excel input_file output_file table_name sheet
                 Hfs Hnd Hem).
      split; [reflexivity|]. cbn [file]. unfold script.
      eexists (_ :: _ :: _)%list. cbn [app]. reflexivity. }
    destruct v.
    + right. now apply Hdone.
    + destruct (in_dec string_dec "ndb_no" (header Fixed sheet)) as [Hin|Hno].
      * right. now apply Hdone.
      * left.
        exact (proj1 (@run_aborts read_excel input_file output_file table_name
                        sheet Hfs Hnd Hno)).
Qed.

(** X8.  The file of a run that finds its columns is exactly, in this
    order: the DROP TABLE statement, the CREATE TABLE statement of the
    header and the type mapping, the transaction start, then for row 0,
    row 1, ... up to the last row of the loaded frame one INSERT statement
    on the template that names the columns in header order, carrying the
    literals of that row, and the COMMIT. *)
Theorem script_layout (v : variant) (read_excel : reader)
  (input_file output_file table_name : string) (sheet : DataFrame) :
  read_excel input_file (dtype_of v) = inr sheet ->
  NoDup (header v sheet) ->
  emits v sheet ->
  file (run v read_excel input_file output_file table_name)
  = Some (Raw (drop_table_sql table_name)
          :: Raw (create_table_sql table_name (types_of v sheet) (header v sheet))
          :: Raw ("START TRANSACTION;" ++ nl)
          :: map (fun i =>
                    InsertInto (insert_template table_name (header v sheet))
                      (literals (numeric_text_of v) (types_of v sheet)
                         (columns (final v sheet)) i))
               (seq 0 (nrows sheet))
          ++ [Raw ("COMMIT;" ++ nl)])%list.
Proof.
  intros Hfs Hnd Hem.
  destruct (@run_emits v read_excel input_file output_file table_name sheet
              Hfs Hnd Hem) as [Hfile _].
  rewrite Hfile. unfold script, inserts.
  now rewrite labels_final, nrows_final.
Qed.

Lemma last_two (l : list string) (a b d : string) :
  last (l ++ [a; b]) d = b.
Proof.
  induction l as [|x l IH]; [reflexivity|].
  cbn [app]. destruct (l ++ [a; b])%list eqn:E; [|exact IH].
  destruct l; discriminate.
Qed.

(** X9.  The number in the last line a successful run prints is the number
    of INSERT statements it wrote. *)
Theorem reported_count (v : variant) (read_excel : reader)
  (input_file output_file table_name : string) (sheet : DataFrame) :
  read_excel input_file (dtype_of v) = inr sheet ->
  NoDup (header v sheet) ->
  emits v sheet ->
  last (stdout (run v read_excel input_file output_file table_name)) ""
  = "SQL file '" ++ output_file ++ "' generated successfully with "
    ++ Py.str_int
         (Z.of_nat
            (List.length
               (insert_values
                  (run v read_excel input_file output_file table_name))))
    ++ " INSERT statements.".
Proof.
  intros Hfs Hnd Hem.
  destruct (@run_emits v read_excel input_file output_file table_name sheet
              Hfs Hnd Hem) as [Hfile _].
  rewrite (@insert_values_script _ _ _ _ _ Hfile), length_map, length_seq,
    nrows_final.
  rewrite (@run_outcome v read_excel input_file output_file table_name sheet
             Hfs Hnd Hem).
  cbn [stdout]. rewrite app_comm_cons, last_two. unfold success_message.
  now destruct v.
Qed.

(** X10.  A cell that is already missing when the frame is loaded (NaN,
    or None) is written as NULL, whatever the type of its column. *)
Theorem missing_at_load_is_null (v : variant) (read_excel : reader)
  (input_file output_file table_name : string) (sheet : DataFrame)
  (i j : nat) (c : cell) :
  read_excel input_file (dtype_of v) = inr sheet ->
  NoDup (header v sheet) ->
  emits v sheet ->
  cell_at sheet i j = Some c ->
  notna c = false ->
  literal_at (run v read_excel input_file output_file table_name) i j
  = Some "NULL".
Proof.
  intros Hfs Hnd Hem Hcell Hna.
  apply cell_at_Some in Hcell. destruct Hcell as [Hi [n [data [Hj Hd]]]].
  rewrite (@literal_of_cell v read_excel input_file output_file table_name sheet
             i j n data c Hfs Hnd Hem Hi Hj Hd).
  destruct c; try discriminate; cbn [clean_cell remove_semicolons
    null_placeholder numeric_of_cell as_float];
    repeat match goal with |- context [if ?b then _ else _] => destruct b end;
    reflexivity.
Qed.

(** ** Cleaning *)

Lemma subst_char_absent (q : ascii) (new s : string) :
  has_char q s = false -> subst_char q new s = s.
Proof.
  induction s as [|c s IH]; [reflexivity|]. cbn [has_char subst_char].
  intros H. apply orb_false_iff in H. destruct H as [Hc Hs].
  now rewrite Hc, IH.
Qed.

Lemma has_char_lstrip (q : ascii) (s : string) :
  has_char q s = false -> has_char q (Py.lstrip s) = false.
Proof.
  induction s as [|c s IH]; [reflexivity|]. cbn [Py.lstrip].
  intros H. destruct (Py.isspace c); [|exact H].
  apply IH. cbn [has_char] in H. now apply orb_false_iff in H.
Qed.

Lemma has_char_rstrip (q : ascii) (s : string) :
  has_char q s = false -> has_char q (Py.rstrip s) = false.
Proof.
  induction s as [|c s IH]; [reflexivity|]. cbn [Py.rstrip has_char].
  intros H. apply orb_false_iff in H. destruct H as [Hc Hs].
  specialize (IH Hs). destruct (Py.rstrip s) as [|c' r].
  - destruct (Py.isspace c); [reflexivity|].
    cbn [has_char]. now rewrite Hc.
  - cbn [has_char] in *. now rewrite Hc, IH.
Qed.

Lemma rstrip_idempotent (s : string) : Py.rstrip (Py.rstrip s) = Py.rstrip s.
Proof.
  induction s as [|c s IH]; [reflexivity|]. cbn [Py.rstrip].
  destruct (Py.rstrip s) as [|c' r] eqn:E.
  - destruct (Py.isspace c) eqn:Ec; [reflexivity|].
    cbn [Py.rstrip]. now rewrite Ec.
  - cbn [Py.rstrip]. cbn [Py.rstrip] in IH.
    destruct (Py.rstrip r) as [|c'' r'] eqn:Er.
    + destruct (Py.isspace c'); [discriminate|]. now rewrite IH.
    + now rewrite IH.
Qed.

Lemma lstrip_starts_clean (s : string) : starts_clean (Py.lstrip s) = true.
Proof.
  induction s as [|c s IH]; [reflexivity|]. cbn [Py.lstrip].
  destruct (Py.isspace c) eqn:E; [exact IH|]. cbn [starts_clean]. now rewrite E.
Qed.

Lemma rstrip_starts_clean (s : string) :
  starts_clean s = true -> starts_clean (Py.rstrip s) = true.
Proof.
  destruct s as [|c s]; [reflexivity|]. cbn [starts_clean Py.rstrip].
  intros H. destruct (Py.rstrip s).
  - apply negb_true_iff in H. rewrite H. cbn [starts_clean]. now rewrite H.
  - exact H.
Qed.

Lemma lstrip_clean_start (s : string) :
  starts_clean s = true -> Py.lstrip s = s.
Proof.
  destruct s as [|c s]; [reflexivity|]. cbn [starts_clean Py.lstrip].
  intros H. apply negb_true_iff in H. now rewrite H.
Qed.

Lemma strip_idempotent (s : string) : Py.strip (Py.strip s) = Py.strip s.
Proof.
  unfold Py.strip.
  rewrite (lstrip_clean_start (Py.rstrip (Py.lstrip s))).
  - apply rstrip_idempotent.
  - apply rstrip_starts_clean, lstrip_starts_clean.
Qed.

Lemma clean_label_no_semicolon (n : string) :
  has_char ";"%char (clean_label n) = false.
Proof.
  unfold clean_label, Py.strip.
  apply has_char_rstrip, has_char_lstrip.
  change ";" with (String ";"%char EmptyString).
  rewrite replace_single. apply has_char_removed.
Qed.

Lemma clean_label_idempotent (n : string) :
  clean_label (clean_label n) = clean_label n.
Proof.
  unfold clean_label at 1.
  change ";" with (String ";"%char EmptyString).
  rewrite replace_single, subst_char_absent by apply clean_label_no_semicolon.
  unfold clean_label. apply strip_idempotent.
Qed.

Lemma clean_cell_idempotent (c : cell) : clean_cell (clean_cell c) = clean_cell c.
Proof.
  destruct c as [s|z|x| |]; try reflexivity.
  unfold clean_cell. cbn [remove_semicolons null_placeholder].
  change ";" with (String ";"%char EmptyString). rewrite replace_single.
  destruct (existsb (String.eqb (subst_char ";" "" s)) placeholders) eqn:E;
    [reflexivity|].
  cbn [remove_semicolons]. rewrite replace_single.
  rewrite subst_char_absent by apply has_char_removed.
  cbn [null_placeholder]. now rewrite E.
Qed.

(** X11.  Cleaning is idempotent in both variants: cleaning the cleaned
    frame again changes neither a label nor a cell. *)
Theorem cleaning_idempotent (v : variant) (sheet : DataFrame) :
  cleaned v (cleaned v sheet) = cleaned v sheet.
Proof.
  assert (Hrows : forall df, nrows (cleaned v df) = nrows df) by now destruct v.
  assert (Hcols : columns (cleaned v (cleaned v sheet)) = columns (cleaned v sheet)).
  { rewrite (columns_cleaned v (cleaned v sheet)), (columns_cleaned v sheet).
    rewrite map_map. apply map_ext. intros [n data]. cbn [fst snd].
    f_equal.
    - destruct v; [reflexivity | apply clean_label_idempotent].
    - rewrite map_map. apply map_ext. intros c. apply clean_cell_idempotent. }
  pose proof (Hrows (cleaned v sheet)) as Hr.
  destruct (cleaned v (cleaned v sheet)) as [n1 c1].
  destruct (cleaned v sheet) as [n2 c2].
  cbn [nrows columns] in *. now subst.
Qed.

(** X12.  In the fixed variant no label of [all_columns] holds a semicolon
    or starts or ends with a blank. *)
Theorem fixed_labels_are_clean (sheet : DataFrame) (col : string) :
  In col (header Fixed sheet) ->
  has_char ";"%char col = false /\ Py.strip col = col.
Proof.
  rewrite header_relabel. intros Hin. apply in_map_iff in Hin.
  destruct Hin as [n [<- _]]. cbn [relabel]. split.
  - apply clean_label_no_semicolon.
  - unfold clean_label. apply strip_idempotent.
Qed.

(** ** Quoting, continued *)

Lemma length_append (a b : string) :
  String.length (a ++ b) = String.length a + String.length b.
Proof.
  induction a as [|c a IH]; [reflexivity|]. cbn [append String.length].
  now rewrite IH.
Qed.

Lemma append_cancel_r (a b t : string) : a ++ t = b ++ t -> a = b.
Proof.
  revert b. induction a as [|c a IH]; intros [|d b] H; cbn [append] in H.
  - reflexivity.
  - apply (f_equal String.length) in H. cbn [String.length] in H.
    rewrite length_append in H. lia.
  - apply (f_equal String.length) in H. cbn [String.length] in H.
    rewrite length_append in H. lia.
  - injection H as -> H. f_equal. now apply IH.
Qed.

Lemma escape_head (c : ascii) (s : string) :
  exists t, escape (String c s) = String c t.
Proof.
  cbn [escape]. destruct (Ascii.eqb c "'"%char) eqn:E1.
  - apply Ascii.eqb_eq in E1. subst c. eauto.
  - destruct (Ascii.eqb c (ascii_of_nat 92)) eqn:E2; [|eauto].
    apply Ascii.eqb_eq in E2. subst c. eauto.
Qed.

Lemma escape_injective (a b : string) : escape a = escape b -> a = b.
Proof.
  revert b. induction a as [|c a IH]; intros [|d b] H.
  - reflexivity.
  - destruct (escape_head d b) as [t Ht]. rewrite Ht in H. discriminate.
  - destruct (escape_head c a) as [t Ht]. rewrite Ht in H. discriminate.
  - assert (c = d).
    { destruct (escape_head c a) as [t Ht]. destruct (escape_head d b) as [u Hu].
      rewrite Ht, Hu in H. now injection H. }
    subst d. f_equal. apply IH. cbn [escape] in H.
    destruct (Ascii.eqb c "'"%char);
      [|destruct (Ascii.eqb c (ascii_of_nat 92))]; now injection H.
Qed.

(** X13.  Quoting loses nothing: in a column whose type is neither INT nor
    DOUBLE, two values that are not missing get the same literal only if
    they have the same text. *)
Theorem quoting_injective (numeric_text : cell -> string) (column_types : Py.dict)
  (col_name : string) (a b : cell) :
  Py.in_list (Py.dict_get column_types col_name) ["INT"; "DOUBLE"] = false ->
  a <> PyNone ->
  b <> PyNone ->
  sql_literal numeric_text column_types col_name a
  = sql_literal numeric_text column_types col_name b ->
  str a = str b.
Proof.
  intros Htype Ha Hb H.
  assert (Hq : forall v, v <> PyNone ->
            sql_literal numeric_text column_types col_name v
            = "'" ++ (escape (str v) ++ "'")).
  { intros v Hv. unfold sql_literal. rewrite Htype, safe_value_escape.
    destruct v; try reflexivity. contradiction. }
  rewrite (Hq a Ha), (Hq b Hb) in H. cbn [append] in H. injection H as H.
  apply escape_injective. eapply append_cancel_r. eassumption.
Qed.

(** ** The original variant's numeric branch *)

(** X14.  In the original variant a column typed DOUBLE is converted: the
    literal of a cell is NULL when conversion leaves no number, and
    otherwise the text of the number, unquoted. *)
Theorem original_double_literal (read_excel : reader)
  (input_file output_file table_name : string) (sheet : DataFrame)
  (i j : nat) (n : string) (data : list cell) (c : cell) :
  read_excel input_file [] = inr sheet ->
  NoDup (header Original sheet) ->
  i < nrows sheet ->
  nth_error (columns sheet) j = Some (n, data) ->
  nth_error data i = Some c ->
  Py.dict_get (types_of Original sheet) n = Some "DOUBLE" ->
  literal_at (run Original read_excel input_file output_file table_name) i j
  = Some match numeric_of_cell (clean_cell c) with
         | Int z =>
             if forallb is_Int (map numeric_of_cell (map clean_cell data))
             then Py.str_int z
             else str_float (float_of_int z)
         | Float x => str_float x
         | _ => "NULL"
         end.
Proof.
  intros Hfs Hnd Hi Hj Hd Htype.
  rewrite (@literal_of_cell Original read_excel input_file output_file table_name
             sheet i j n data c Hfs Hnd I Hi Hj Hd).
  cbn [relabel converted numeric_text_of]. unfold is_numeric. rewrite Htype.
  change (Py.in_list (Some "DOUBLE") ["DOUBLE"]) with true. cbv iota. f_equal.
  unfold sql_literal. rewrite Htype.
  change (Py.in_list (Some "DOUBLE") ["INT"; "DOUBLE"]) with true. cbv iota.
  destruct (forallb is_Int (map numeric_of_cell (map clean_cell data)));
    destruct (numeric_of_cell_shape (clean_cell c)) as [->|[[z ->]|[x ->]]];
    reflexivity.
Qed.

(** X15.  In the original variant a column typed INT is not converted: the
    literal of a cell that is not missing is the text of the cleaned cell
    as it stands, without quotes, whether it is a number or not. *)
Theorem original_int_column_unconverted (read_excel : reader)
  (input_file output_file table_name : string) (sheet : DataFrame)
  (i j : nat) (n : string) (data : list cell) (c : cell) :
  read_excel input_file [] = inr sheet ->
  NoDup (header Original sheet) ->
  i < nrows sheet ->
  nth_error (columns sheet) j = Some (n, data) ->
  nth_error data i = Some c ->
  Py.dict_get (types_of Original sheet) n = Some "INT" ->
  literal_at (run Original read_excel input_file output_file table_name) i j
  = Some (if notna (clean_cell c) then str (clean_cell c) else "NULL").
Proof.
  intros Hfs Hnd Hi Hj Hd Htype.
  rewrite (@literal_of_cell Original read_excel input_file output_file table_name
             sheet i j n data c Hfs Hnd I Hi Hj Hd).
  cbn [relabel converted numeric_text_of]. unfold is_numeric. rewrite Htype.
  change (Py.in_list (Some "INT") ["DOUBLE"]) with false. cbv iota. f_equal.
  unfold sql_literal, none_if_na. rewrite Htype.
  change (Py.in_list (Some "INT") ["INT"; "DOUBLE"]) with true. cbv iota.
  destruct (clean_cell c); reflexivity.
Qed.

End Properties.

(** * The claims on the sample sheets *)

Section Samples.
Import Config Examples.

(** The text the fixed variant writes for the sheet with the whole header. *)
Example full_header_text :
  option_map (map render)
    (file (run Fixed (disk full_header) input_excel_file output_sql_file_v1
             table_name))
  = Some
      ["DROP TABLE IF EXISTS `tb_food_mst_dosm_origin`;" ++ nl ++ nl;
       "CREATE TABLE `tb_food_mst_dosm_origin` (" ++ nl
       ++ "  `food_id` VARCHAR(50) NOT NULL," ++ nl
       ++ "  `ndb_no` INT NULL," ++ nl
       ++ "  `energy` DOUBLE NULL," ++ nl
       ++ "  `protein` DOUBLE NULL," ++ nl
       ++ "  `serv_weight_7` DOUBLE NULL," ++ nl
       ++ "  `last_modified` DATETIME NULL" ++ nl
       ++ ") ENGINE=InnoDB DEFAULT CHARSET=utf8mb4;" ++ nl ++ nl;
       "START TRANSACTION;" ++ nl;
       "INSERT INTO `tb_food_mst_dosm_origin` (`food_id`, `ndb_no`, `energy`, "
       ++ "`protein`, `serv_weight_7`, `last_modified`) VALUES "
       ++ "('09012', 7, 150, NULL, NULL, '2024-01-01');" ++ nl;
       "COMMIT;" ++ nl].
Proof. reflexivity. Qed.

(** C7 at a directory without the input file. *)
Lemma source_not_found_witness :
  run Fixed empty_disk input_excel_file output_sql_file_v1 table_name
  = {| stdout := [reading_v1 input_excel_file; not_found_message input_excel_file];
       file := None;
       raised := None |}.
Proof.
  apply (@source_not_found ShortDecimal.model Fixed empty_disk input_excel_file output_sql_file_v1
           table_name).
  reflexivity.
Defined.

(** C10 at the four-column sheet. *)
Lemma missing_ndb_no_is_fatal_witness :
  coerce_columns ["INT"; "DOUBLE"] (types_of Fixed four_columns)
    (cleaned Fixed four_columns)
  = inl (KeyError "ndb_no")
  /\ raised (run Fixed (disk four_columns) input_excel_file output_sql_file_v1
               table_name)
     = Some (KeyError "ndb_no")
  /\ file (run Fixed (disk four_columns) input_excel_file output_sql_file_v1
             table_name)
     = None.
Proof.
  apply (@missing_ndb_no_is_fatal ShortDecimal.model (disk four_columns) input_excel_file
           output_sql_file_v1 table_name four_columns).
  - reflexivity.
  - apply nodupb_NoDup. reflexivity.
  - apply existsb_eqb_false. reflexivity.
Defined.

(** C6: the fixed variant loads one row of the four-column sheet and
    writes no INSERT statement, because it writes no file at all. *)
Lemma insert_count_counterexample :
  nrows four_columns = 1
  /\ List.length
       (insert_values
          (run Fixed (disk four_columns) input_excel_file output_sql_file_v1
             table_name))
     = 0
  /\ file (run Fixed (disk four_columns) input_excel_file output_sql_file_v1
             table_name)
     = None.
Proof. repeat split. Qed.

(** C6, as amended, at the sheet with the whole header. *)
Lemma insert_count_witness :
  raised (run Fixed (disk full_header) input_excel_file output_sql_file_v1
            table_name)
  = None
  /\ insert_values
       (run Fixed (disk full_header) input_excel_file output_sql_file_v1
          table_name)
     = map (literals (numeric_text_of Fixed) (types_of Fixed full_header)
              (columns (final Fixed full_header)))
           (seq 0 (nrows full_header))
  /\ List.length
       (insert_values
          (run Fixed (disk full_header) input_excel_file output_sql_file_v1
             table_name))
     = nrows full_header
  /\ (forall values,
        In values
           (insert_values
              (run Fixed (disk full_header) input_excel_file output_sql_file_v1
                 table_name)) ->
        List.length values = List.length (labels full_header)).
Proof.
  apply (@insert_count ShortDecimal.model Fixed (disk full_header) input_excel_file
           output_sql_file_v1 table_name full_header).
  - reflexivity.
  - apply nodupb_NoDup. reflexivity.
  - apply existsb_eqb_In. reflexivity.
Defined.

(** C3 at the cell ["0;"] of [serv_weight_7]. *)
Lemma placeholder_is_null_witness :
  cell_at (cleaned Fixed full_header) 0 4 = Some NaN
  /\ literal_at
       (run Fixed (disk full_header) input_excel_file output_sql_file_v1 table_name)
       0 4
     = Some "NULL".
Proof.
  apply (@placeholder_is_null ShortDecimal.model Fixed (disk full_header) input_excel_file
           output_sql_file_v1 table_name full_header 0 4 (Str "0;") "0").
  - reflexivity.
  - apply nodupb_NoDup. reflexivity.
  - discriminate.
  - reflexivity.
  - reflexivity.
  - right. left. reflexivity.
Defined.

(** C4: without [energy] and without [ndb_no] the run prints the warning
    and then aborts; no file is written. *)
Lemma missing_anchor_counterexample :
  stdout (run Fixed (disk plain) input_excel_file output_sql_file_v1 table_name)
  = [reading_v1 input_excel_file; warning_no_block]
  /\ raised (run Fixed (disk plain) input_excel_file output_sql_file_v1 table_name)
     = Some (KeyError "ndb_no")
  /\ file (run Fixed (disk plain) input_excel_file output_sql_file_v1 table_name)
     = None.
Proof. repeat split. Qed.

(** C4, as amended, at the sheet that has [ndb_no] and [energy] but not
    [serv_weight_7]. *)
Lemma missing_anchor_falls_back_witness :
  stdout (run Fixed (disk no_anchor) input_excel_file output_sql_file_v1 table_name)
  = [reading_v1 input_excel_file; warning_no_block;
     generating output_sql_file_v1;
     success_message output_sql_file_v1 (cleaned Fixed no_anchor)]
  /\ raised (run Fixed (disk no_anchor) input_excel_file output_sql_file_v1
               table_name)
     = None
  /\ file (run Fixed (disk no_anchor) input_excel_file output_sql_file_v1
             table_name)
     = Some (script numeric_text_v1 table_name (types_of Fixed no_anchor)
               (final Fixed no_anchor))
  /\ (forall col,
        In col (header Fixed no_anchor) ->
        col <> "food_id" -> col <> "ndb_no" -> col <> "last_modified" ->
        Py.dict_get (types_of Fixed no_anchor) col = Some "VARCHAR(255)").
Proof.
  apply (@missing_anchor_falls_back ShortDecimal.model (disk no_anchor) input_excel_file
           output_sql_file_v1 table_name no_anchor).
  - reflexivity.
  - apply nodupb_NoDup. reflexivity.
  - apply existsb_eqb_In. reflexivity.
  - right. apply existsb_eqb_false. reflexivity.
Defined.

(** C8: on the sheet with the whole header, the type map of either variant
    marks [food_id] as the primary key, the definition written for it is
    VARCHAR(50) NOT NULL, and no statement of the file either variant writes
    mentions PRIMARY KEY. *)
Lemma primary_key_never_written :
  Py.dict_get (types_of Fixed full_header) "food_id"
  = Some "VARCHAR(50) PRIMARY KEY"
  /\ Py.dict_get (types_of Original full_header) "food_id"
     = Some "VARCHAR(50) PRIMARY KEY"
  /\ col_defs (types_of Fixed full_header) (header Fixed full_header)
     = ["  `food_id` VARCHAR(50) NOT NULL";
        "  `ndb_no` INT NULL";
        "  `energy` DOUBLE NULL";
        "  `protein` DOUBLE NULL";
        "  `serv_weight_7` DOUBLE NULL";
        "  `last_modified` DATETIME NULL"]
  /\ option_map (existsb (fun st => Py.str_in "PRIMARY KEY" (render st)))
       (file (run Fixed (disk full_header) input_excel_file output_sql_file_v1
                table_name))
     = Some false
  /\ option_map (existsb (fun st => Py.str_in "PRIMARY KEY" (render st)))
       (file (run Original (disk full_header) input_excel_file output_sql_file
                table_name))
     = Some false.
Proof. repeat split. Qed.

(** C9 at the catalogue number ["007"]: the literal is 7. *)
Lemma ndb_no_written_as_number_witness :
  literal_at
    (run Fixed (disk full_header) input_excel_file output_sql_file_v1 table_name)
    0 1
  = Some "7".
Proof.
  apply (@ndb_no_written_as_number ShortDecimal.model (disk full_header)
           input_excel_file output_sql_file_v1 table_name full_header 0 1
           "ndb_no" [Str "007"] (Str "007")
           eq_refl
           (proj1 (nodupb_NoDup (header Fixed full_header)) eq_refl)
           Nat.lt_0_1 eq_refl eq_refl eq_refl).
Defined.

(** C1: the scenario's sheet as it stands makes the run abort, and with
    [ndb_no] added but no [serv_weight_7] the literal of [energy] is
    quoted. *)
Lemma scenario_row_counterexample :
  raised (run Fixed (disk four_columns) input_excel_file output_sql_file_v1
            table_name)
  = Some (KeyError "ndb_no")
  /\ insert_values
       (run Fixed (disk four_columns) input_excel_file output_sql_file_v1
          table_name)
     = []
  /\ insert_values
       (run Fixed (disk no_anchor) input_excel_file output_sql_file_v1 table_name)
     = [["'09012'"; "7"; "'150'"; "NULL"; "'2024-01-01'"]].
Proof. repeat split. Qed.

(** C1, as amended, at the sheet with the whole header. *)
Lemma scenario_row_witness :
  literal_at
    (run Fixed (disk full_header) input_excel_file output_sql_file_v1 table_name)
    0 0
  = Some "'09012'"
  /\ literal_at
       (run Fixed (disk full_header) input_excel_file output_sql_file_v1 table_name)
       0 2
     = Some "150"
  /\ literal_at
       (run Fixed (disk full_header) input_excel_file output_sql_file_v1 table_name)
       0 3
     = Some "NULL"
  /\ literal_at
       (run Fixed (disk full_header) input_excel_file output_sql_file_v1 table_name)
       0 5
     = Some "'2024-01-01'".
Proof.
  apply (@scenario_row ShortDecimal.model (disk full_header) input_excel_file output_sql_file_v1
           table_name full_header 0 0 2 3 5
           "food_id" "energy" "protein" "last_modified"
           [Str "09012"] [Str "150"] [Str ""] [Str "2024-01-01"]);
    try reflexivity.
  - apply nodupb_NoDup. reflexivity.
  - apply existsb_eqb_In. reflexivity.
  - apply Nat.lt_0_1.
Defined.

(** C2: the original variant leaves [ndb_no], typed INT, unconverted: the
    text ["abc"] is written as it is, unquoted, where the fixed variant
    writes NULL. *)
Lemma original_skips_int_coercion :
  Py.dict_get (types_of Original bad_numbers) "ndb_no" = Some "INT"
  /\ insert_values
       (run Original (disk bad_numbers) input_excel_file output_sql_file table_name)
     = [["'A1'"; "abc"; "'2024-01-01'"]; ["'A2'"; " 12 "; "NULL"]]
  /\ insert_values
       (run Fixed (disk bad_numbers) input_excel_file output_sql_file_v1 table_name)
     = [["'A1'"; "NULL"; "'2024-01-01'"]; ["'A2'"; "12.0"; "NULL"]].
Proof. repeat split. Qed.

(** C5: in the original variant the literal of a text in the INT column
    is the text itself, blanks included, neither a number nor stripped. *)
Lemma original_int_literal_is_raw_text :
  is_numeric ["INT"; "DOUBLE"] (types_of Original bad_numbers) "ndb_no" = true
  /\ cell_at bad_numbers 0 1 = Some (Str "abc")
  /\ literal_at
       (run Original (disk bad_numbers) input_excel_file output_sql_file table_name)
       0 1
     = Some "abc"
  /\ cell_at bad_numbers 1 1 = Some (Str " 12 ")
  /\ literal_at
       (run Original (disk bad_numbers) input_excel_file output_sql_file table_name)
       1 1
     = Some " 12 ".
Proof. repeat split. Qed.

(** X1 at the cell ["150"] of [energy]. *)
Lemma fixed_numeric_literal_witness :
  literal_at
    (run Fixed (disk full_header) input_excel_file output_sql_file_v1 table_name)
    0 2
  = Some "150".
Proof.
  apply (@fixed_numeric_literal ShortDecimal.model (disk full_header)
           input_excel_file output_sql_file_v1 table_name full_header 0 2
           "energy" [Str "150"] (Str "150")
           eq_refl
           (proj1 (nodupb_NoDup (header Fixed full_header)) eq_refl)
           (proj1 (existsb_eqb_In "ndb_no" (header Fixed full_header)) eq_refl)
           Nat.lt_0_1 eq_refl eq_refl eq_refl).
Defined.

(** X2 at the cell ["09012"] of [food_id]. *)
Lemma quoted_literal_witness :
  literal_at
    (run Fixed (disk full_header) input_excel_file output_sql_file_v1 table_name)
    0 0
  = Some "'09012'".
Proof.
  apply (@quoted_literal ShortDecimal.model Fixed (disk full_header)
           input_excel_file output_sql_file_v1 table_name full_header 0 0
           "food_id" [Str "09012"] (Str "09012")
           eq_refl
           (proj1 (nodupb_NoDup (header Fixed full_header)) eq_refl)
           (proj1 (existsb_eqb_In "ndb_no" (header Fixed full_header)) eq_refl)
           Nat.lt_0_1 eq_refl eq_refl eq_refl eq_refl).
Defined.

(** X3 at a food identifier with semicolons in it. *)
Lemma no_semicolon_in_text_literal_witness :
  exists literal,
    literal_at
      (run Original (disk bad_numbers) input_excel_file output_sql_file table_name)
      0 0
    = Some literal
    /\ has_char ";"%char literal = false.
Proof.
  apply (@no_semicolon_in_text_literal ShortDecimal.model Original
           (disk bad_numbers) input_excel_file output_sql_file table_name
           bad_numbers 0 0 "food_id" [Str "A;1"; Str "A2"] "A;1"
           eq_refl
           (proj1 (nodupb_NoDup (header Original bad_numbers)) eq_refl)
           I (Nat.lt_0_succ 1) eq_refl eq_refl eq_refl eq_refl).
Defined.

(** X4 at [protein], between the two anchors of [full_header]. *)
Lemma fixed_type_by_position_witness :
  snd (column_types_v1 (header Fixed full_header)) = []
  /\ Py.dict_get (types_of Fixed full_header) "protein" = Some "DOUBLE".
Proof.
  exact (@fixed_type_by_position ShortDecimal.model full_header 2 4 3 "protein"
           (proj1 (nodupb_NoDup (header Fixed full_header)) eq_refl)
           eq_refl eq_refl eq_refl).
Defined.

(** X5 at the twelfth column of [wide]. *)
Lemma original_type_by_position_witness :
  Py.dict_get (types_of Original wide) "c11" = Some "DOUBLE".
Proof.
  exact (@original_type_by_position ShortDecimal.model wide 11 "c11"
           (proj1 (nodupb_NoDup (header Original wide)) eq_refl) eq_refl).
Defined.

(** X6 for the fixed script on a machine without openpyxl. *)
Lemma import_error_handling_witness :
  main_v1 no_openpyxl
  = {| stdout :=
         [reading_v1 input_excel_file;
          "Error: Missing optional dependency 'openpyxl'.";
          pip_hint];
       file := None;
       raised := None |}.
Proof.
  exact (@import_error_handling ShortDecimal.model Fixed no_openpyxl
           input_excel_file output_sql_file_v1 table_name
           "Missing optional dependency 'openpyxl'." eq_refl).
Defined.

(** X7 for the fixed script on [full_header]. *)
Lemma all_or_nothing_witness :
  file (main_v1 (disk full_header)) = None
  \/ (raised (main_v1 (disk full_header)) = None
      /\ exists body,
           file (main_v1 (disk full_header))
           = Some (Raw (drop_table_sql table_name) :: body
                   ++ [Raw ("COMMIT;" ++ nl)])%list).
Proof.
  apply (@all_or_nothing ShortDecimal.model Fixed (disk full_header)
           input_excel_file output_sql_file_v1 table_name).
  intros sheet Hfs. cbv [disk] in Hfs. cbn in Hfs. injection Hfs as <-.
  exact (proj1 (nodupb_NoDup (header Fixed full_header)) eq_refl).
Defined.

(** X8 for the original script on [plain]. *)
Lemma script_layout_witness :
  file (main_orig (disk plain))
  = Some
      [Raw (drop_table_sql table_name);
       Raw (create_table_sql table_name (types_of Original plain) ["food_id"; "name"]);
       Raw ("START TRANSACTION;" ++ nl);
       InsertInto (insert_template table_name ["food_id"; "name"])
         ["'A1'"; "'rice'"];
       Raw ("COMMIT;" ++ nl)].
Proof.
  exact (@script_layout ShortDecimal.model Original (disk plain)
           input_excel_file output_sql_file table_name plain
           eq_refl (proj1 (nodupb_NoDup (header Original plain)) eq_refl) I).
Defined.

(** X9 for the original script on the two rows of [bad_numbers]. *)
Lemma reported_count_witness :
  last (stdout (main_orig (disk bad_numbers))) ""
  = "SQL file 'food_data_2025_origin.sql' generated successfully with 2 INSERT statements.".
Proof.
  exact (@reported_count ShortDecimal.model Original (disk bad_numbers)
           input_excel_file output_sql_file table_name bad_numbers
           eq_refl (proj1 (nodupb_NoDup (header Original bad_numbers)) eq_refl) I).
Defined.

(** X10 at the missing catalogue number of [untidy]. *)
Lemma missing_at_load_is_null_witness :
  literal_at (main_v1 (disk untidy)) 0 1 = Some "NULL".
Proof.
  exact (@missing_at_load_is_null ShortDecimal.model Fixed (disk untidy)
           input_excel_file output_sql_file_v1 table_name untidy 0 1 NaN
           eq_refl
           (proj1 (nodupb_NoDup (header Fixed untidy)) eq_refl)
           (proj1 (existsb_eqb_In "ndb_no" (header Fixed untidy)) eq_refl)
           eq_refl eq_refl).
Defined.

(** X12 at the first label of [untidy]. *)
Lemma fixed_labels_are_clean_witness :
  has_char ";"%char "food_id" = false /\ Py.strip "food_id" = "food_id".
Proof.
  exact (@fixed_labels_are_clean ShortDecimal.model untidy "food_id"
           (proj1 (existsb_eqb_In "food_id" (header Fixed untidy)) eq_refl)).
Defined.

(** X13 at a text and a number that print alike, in the [name] column of
    [plain]. *)
Lemma quoting_injective_witness :
  @str ShortDecimal.model (Str "7") = @str ShortDecimal.model (Int 7).
Proof.
  apply (@quoting_injective ShortDecimal.model numeric_text_orig
           (types_of Original plain) "name" (Str "7") (Int 7)).
  - reflexivity.
  - discriminate.
  - discriminate.
  - reflexivity.
Defined.

(** X14 at the twelfth column of [wide]. *)
Lemma original_double_literal_witness :
  literal_at (main_orig (disk wide)) 0 11 = Some "15".
Proof.
  exact (@original_double_literal ShortDecimal.model (disk wide)
           input_excel_file output_sql_file table_name wide 0 11
           "c11" [Str "1;5"] (Str "1;5")
           eq_refl (proj1 (nodupb_NoDup (header Original wide)) eq_refl)
           Nat.lt_0_1 eq_refl eq_refl eq_refl).
Defined.

(** X15 at a catalogue number that is no number. *)
Lemma original_int_column_unconverted_witness :
  literal_at (main_orig (disk bad_numbers)) 0 1 = Some "abc".
Proof.
  exact (@original_int_column_unconverted ShortDecimal.model (disk bad_numbers)
           input_excel_file output_sql_file table_name bad_numbers 0 1
           "ndb_no" [Str "abc"; Str " 12 "] (Str "abc")
           eq_refl (proj1 (nodupb_NoDup (header Original bad_numbers)) eq_refl)
           (Nat.lt_0_succ 1) eq_refl eq_refl eq_refl).
Defined.

End Samples.
